(** * transactions-dashboard: the ingestion pipeline of [bankfiles.py] and
    [amex9.py], embedded and checked against its specification.

    The two scripts share their classifier, payment-method detection and
    ledger append word for word; they differ in the column resolver and in the
    amount handling of [process_csv_file].  Each stage is a function here:

    - [PyStr]: the [str] operations the code calls ([lower], [strip],
      [split], [in], [endswith], [os.path.basename]);
    - [Classifier]: [load_vendor_rules] and [determine_vendor_cat_tag];
    - [Table]: the part of a pandas [DataFrame] the code relies on;
    - [Resolver]: the column-resolution loop of [process_csv_file];
    - [Amounts]: the Debit/Credit fallback and the sign flip;
    - [Payment]: [determine_payment_method] and the VACU override;
    - [Ledger]: [update_master_file];
    - [PandasCsv]: the text [to_csv] writes and what [read_csv] makes of it,
      for the samples;
    - [Excel]: the column resolution of [process_excel_file];
    - [Files]: [list_files], [select_file], [process_file], [main] and the
      statement label made of a file name;
    - [Description]: the composed description of [process_csv_file].

    Text is a [string] of characters with code points below 256; numbers are
    binary64 floats, as pandas holds them. *)

From Stdlib Require Import ZArith List Bool Ascii String Uint63 Floats Lia DecimalString.
From stdpp Require Import base option list strings gmap.
Import ListNotations.

Local Open Scope string_scope.
Local Open Scope list_scope.

(** ** Python [str] operations *)

Module PyStr.

(** Code point of a character. *)
Definition ord (c : ascii) : N := N_of_ascii c.

Definition between (lo hi n : N) : bool := ((lo <=? n) && (n <=? hi))%N.

(** [c.lower()] on one character: the letters A-Z, and in the Latin-1 block the
    capitals U+00C0..U+00DE except the multiplication sign U+00D7, move up by
    32; every other code point below 256 is its own lowercase. *)
Definition lower_char (c : ascii) : ascii :=
  let n := ord c in
  if between 65 90 n || between 192 214 n || between 216 222 n
  then ascii_of_N (n + 32) else c.

(** [s.lower()] *)
Fixpoint lower (s : string) : string :=
  match s with
  | EmptyString => EmptyString
  | String c s' => String (lower_char c) (lower s')
  end.

(** The characters [str.strip()] removes: TAB, LF, VT, FF, CR, the separators
    U+001C..U+001F, the space, NEL (U+0085) and the no-break space (U+00A0). *)
Definition is_space (c : ascii) : bool :=
  let n := ord c in
  between 9 13 n || between 28 32 n || (n =? 133)%N || (n =? 160)%N.

Fixpoint lstrip (s : string) : string :=
  match s with
  | EmptyString => EmptyString
  | String c s' => if is_space c then lstrip s' else s
  end.

Fixpoint rstrip (s : string) : string :=
  match s with
  | EmptyString => EmptyString
  | String c s' =>
      match rstrip s' with
      | EmptyString => if is_space c then EmptyString else String c EmptyString
      | r => String c r
      end
  end.

(** [s.strip()] *)
Definition strip (s : string) : string := rstrip (lstrip s).

(** [s.split(sep)] for a one-character separator: never an empty list, and one
    more piece than there are separators. *)
Fixpoint split (sep : ascii) (s : string) : list string :=
  match s with
  | EmptyString => [EmptyString]
  | String c s' =>
      if Ascii.eqb c sep then EmptyString :: split sep s'
      else match split sep s' with
           | piece :: rest => String c piece :: rest
           | [] => [String c EmptyString]
           end
  end.

(** [s.startswith(p)] *)
Fixpoint startswith (p s : string) : bool :=
  match p, s with
  | EmptyString, _ => true
  | String _ _, EmptyString => false
  | String a p', String b s' => Ascii.eqb a b && startswith p' s'
  end.

(** [needle in hay]: [needle] starts at some position of [hay]. *)
Fixpoint contains (needle hay : string) : bool :=
  startswith needle hay ||
  match hay with
  | EmptyString => false
  | String _ hay' => contains needle hay'
  end.

(** What "literal substring" means: [hay] is some text, then [needle], then
    some text. *)
Definition substring_of (needle hay : string) : Prop :=
  exists before after, hay = before +:+ needle +:+ after.

Fixpoint rev_string (acc s : string) : string :=
  match s with
  | EmptyString => acc
  | String c s' => rev_string (String c acc) s'
  end.

(** [s.endswith(suffix)] *)
Definition endswith (suffix s : string) : bool :=
  startswith (rev_string "" suffix) (rev_string "" s).

(** [os.path.basename(p)] on POSIX: what follows the last slash. *)
Fixpoint basename (p : string) : string :=
  match p with
  | EmptyString => EmptyString
  | String c p' =>
      if existsb (Ascii.eqb "/"%char) (list_ascii_of_string p') then basename p'
      else if Ascii.eqb c "/"%char then p' else p
  end.

(** [sep.join(parts)] *)
Fixpoint join (sep : string) (parts : list string) : string :=
  match parts with
  | [] => ""
  | [p] => p
  | p :: rest => p +:+ sep +:+ join sep rest
  end.

End PyStr.

(** ** Outcomes of fallible steps *)

(** The exceptions the modelled code can meet. *)
Inductive exn :=
| FileNotFoundError
| TypeError
| OSError
| OtherError.

(** A step either returns a value or raises. *)
Inductive result (A : Type) :=
| Ok (a : A)
| Raise (e : exn).
Arguments Ok {A} a.
Arguments Raise {A} e.

(** ** The classifier: [load_vendor_rules], [determine_vendor_cat_tag] *)

Module Classifier.
Import PyStr.

(** One row of the rule table: the columns keyword, vendor, category, tag,
    each cell a text.  ([rule['keyword'].split] is a [str] method: a keyword
    cell that pandas read as a missing value is outside this model.) *)
Record rule := mk_rule {
  keyword : string;
  vendor : string;
  category : string;
  tag : string
}.

Definition triple : Type := string * string * string.

Definition rule_triple (r : rule) : triple := (vendor r, category r, tag r).

(** What [pd.read_csv('vendor_rules.csv')] finds: no file; a file it cannot
    read at all; a file it reads into a table of [nrows] rows whose keyword
    column is absent, or holds no text, so that [.str.lower()] on line 31
    raises; or a table of rules. *)
Inductive rules_file :=
| Missing
| Unreadable
| NoKeywords (nrows : nat)
| Rows (rows : list rule).

(** The value of the global [vendor_rules_df] once it is assigned: a table of
    rules, or the table as line 29 left it when line 31 raised, of which only
    the number of rows matters afterwards. *)
Inductive table :=
| Loaded (rules : list rule)
| Raw (nrows : nat).

(** [load_vendor_rules]: line 29 assigns the global as soon as [read_csv]
    returns; line 31 then lowercases the keyword column, or raises (a
    [KeyError] or an [AttributeError]) and leaves the global assigned.  The
    result is the returned table and the global afterwards. *)
Definition load_vendor_rules (file : rules_file) (vendor_rules_df : option table)
  : result (list rule) * option table :=
  match file with
  | Missing => (Raise FileNotFoundError, vendor_rules_df)
  | Unreadable => (Raise OtherError, vendor_rules_df)
  | NoKeywords nrows => (Raise OtherError, Some (Raw nrows))
  | Rows rows =>
      let rules :=
        map (fun r => mk_rule (lower (keyword r)) (vendor r) (category r) (tag r)) rows in
      (Ok rules, Some (Loaded rules))
  end.

(** The condition of line 57: every [&]-separated keyword of the rule, once
    stripped, occurs in [d]. *)
Definition rule_matches (d : string) (r : rule) : bool :=
  forallb (fun kw => contains (strip kw) d) (split "&" (keyword r)).

(** The [for] loop over [iterrows()] with its early [return], and the
    fall-through [return ("", "", "")]. *)
Fixpoint match_rules (d : string) (rules : list rule) : triple :=
  match rules with
  | [] => ("", "", "")
  | r :: rest => if rule_matches d r then rule_triple r else match_rules d rest
  end.

(** Lines 51-61: the function once the rule table is loaded. *)
Definition classify (rules : list rule) (desc : string) : triple :=
  let d := lower desc in
  match_rules d rules.

(** Lines 51-61 on whatever table the global holds.  On a table without
    usable keywords the loop raises at its first row ([rule['keyword']] is a
    [KeyError], [.split] on a number an [AttributeError]); with no row it
    falls through. *)
Definition classify_with (t : table) (desc : string) : result triple :=
  match t with
  | Loaded rules => Ok (classify rules desc)
  | Raw 0 => Ok ("", "", "")
  | Raw (S _) => Raise OtherError
  end.

(** [determine_vendor_cat_tag] with its global [vendor_rules_df] ([None]
    until it is assigned): the table is loaded only while the global is
    [None]; an absent file gives the empty table; any other error of the load
    propagates, the global staying as the load left it. *)
Definition determine_vendor_cat_tag
    (file : rules_file) (vendor_rules_df : option table) (desc : string)
  : result triple * option table :=
  let loaded : result unit * option table :=
    match vendor_rules_df with
    | Some _ => (Ok tt, vendor_rules_df)
    | None =>
        match load_vendor_rules file vendor_rules_df with
        | (Ok _, g) => (Ok tt, g)
        | (Raise FileNotFoundError, _) => (Ok tt, Some (Loaded []))
        | (Raise e, g) => (Raise e, g)
        end
    end in
  match loaded with
  | (Ok _, Some t) => (classify_with t desc, Some t)
  | (Ok _, None) => (Raise OtherError, None) (* [None.iterrows()] *)
  | (Raise e, g) => (Raise e, g)
  end.

(** [new_df["description"].apply(...)]: one triple per row, in row order. *)
Definition annotate (rules : list rule) (descriptions : list string) : list triple :=
  map (classify rules) descriptions.

(** The declarative reading of a match: each keyword of the rule is a literal
    substring of the description. *)
Definition all_keywords_in (r : rule) (d : string) : Prop :=
  forall kw, In kw (split "&" (keyword r)) -> substring_of (strip kw) d.

(** A triple is populated when none of its three fields is empty, and blank
    when all three are. *)
Definition populated (t : triple) : bool :=
  let '(v, c, g) := t in negb (v =? "") && negb (c =? "") && negb (g =? "").

Definition blank (t : triple) : bool :=
  let '(v, c, g) := t in (v =? "") && (c =? "") && (g =? "").

End Classifier.

(** ** The part of a pandas [DataFrame] the code relies on *)

Module Table.

(** A cell holds a number or a text; a missing value is the number NaN, as in
    pandas. *)
Inductive cell :=
| Num (x : float)
| Text (s : string).

Definition series : Type := list cell.

(** A frame is its columns in order, each a name and the cells of that column
    from the first row to the last. *)
Definition frame : Type := list (string * series).

(** [df.columns] *)
Definition columns (df : frame) : list string := map fst df.

(** [name in names] for a list of column names. *)
Definition mem (name : string) (names : list string) : bool :=
  existsb (String.eqb name) names.

(** [c in df.columns] *)
Definition has_column (c : string) (df : frame) : bool := mem c (columns df).

(** [len(df)] *)
Definition nrows (df : frame) : nat :=
  match df with
  | [] => 0
  | (_, cells) :: _ => length cells
  end.

(** [df[c]]; [None] stands for the [KeyError]. *)
Fixpoint get (df : frame) (c : string) : option series :=
  match df with
  | [] => None
  | (name, cells) :: rest => if name =? c then Some cells else get rest c
  end.

(** [df[c] = cells]: replaces the column of that name, or adds it as the last
    column. *)
Definition set (df : frame) (c : string) (cells : series) : frame :=
  if has_column c df
  then map (fun col => if fst col =? c then (c, cells) else col) df
  else df ++ [(c, cells)].

(** [df[c] = v] for one value [v]: the same value in every row. *)
Definition set_scalar (df : frame) (c : string) (v : cell) : frame :=
  set df c (repeat v (nrows df)).

(** [df.rename(columns=mapping)] *)
Definition rename (mapping : gmap string string) (df : frame) : frame :=
  map (fun col => (default (fst col) (mapping !! fst col), snd col)) df.

End Table.

(** ** The column resolver of [process_csv_file] *)

Module Resolver.
Import Table.

(** The loop's variables, and the fields for which [input()] was called. *)
Record state := mk_state {
  column_mapping : gmap string string;
  missing_cols : list string;
  prompted : list string
}.

Definition initial : state := mk_state ∅ [] [].

(** The person at the console: for a field and the columns shown, the number
    that [int(choice)] makes of what was typed, [None] for the [ValueError]. *)
Definition console : Type := string -> list string -> option Z.

(** The [alternatives] dictionary of [bankfiles.py]. *)
Definition alternatives : list (string * list string) :=
  [ ("Date", ["Post Date"; "Transaction Date"; "TRANSACTION DATE"; "DATE"]);
    ("Amount", ["AMOUNT"; "TRANSACTION AMOUNT"; "Transaction Amount"]);
    ("Description", ["DESCRIPTION"; "Transaction Description"; "Details"; "DETAILS"]);
    ("Debit", ["DEBIT"; "Debit Amount"; "DR"]);
    ("Credit", ["CREDIT"; "Credit Amount"; "CR"]) ].

(** The [alternatives] dictionary of [amex9.py]. *)
Definition alternatives_amex9 : list (string * list string) :=
  [ ("Date", ["Post Date"; "Transaction Date"; "TRANSACTION DATE"; "DATE"]);
    ("Amount", ["AMOUNT"; "TRANSACTION AMOUNT"; "Transaction Amount"]);
    ("Description", ["DESCRIPTION"; "Transaction Description"; "Details"; "DETAILS"]) ].

(** [table.get(col, [])] *)
Fixpoint dict_get (table : list (string * list string)) (col : string) : list string :=
  match table with
  | [] => []
  | (key, names) :: rest => if key =? col then names else dict_get rest col
  end.

(** The first alternative name that is a column, if any. *)
Definition first_alternative
    (table : list (string * list string)) (cols : list string) (col : string)
  : option string :=
  List.find (fun alt => mem alt cols) (dict_get table col).

(** One pass of the loop body for the needed column [col]. *)
Definition resolve_column
    (table : list (string * list string)) (cols : list string) (ask : console)
    (st : state) (col : string) : state :=
  if mem col cols then st
  else
    match first_alternative table cols col with
    | Some alt =>
        mk_state (<[alt := col]> (column_mapping st)) (missing_cols st) (prompted st)
    | None =>
        let asked := prompted st ++ [col] in
        match ask col cols with
        | Some choice =>
            let idx := (choice - 1)%Z in
            if ((0 <=? idx) && (idx <? Z.of_nat (length cols)))%Z then
              match cols !! Z.to_nat idx with
              | Some chosen =>
                  mk_state (<[chosen := col]> (column_mapping st)) (missing_cols st) asked
              | None => mk_state (column_mapping st) (missing_cols st ++ [col]) asked
              end
            else mk_state (column_mapping st) (missing_cols st ++ [col]) asked
        | None => mk_state (column_mapping st) (missing_cols st ++ [col]) asked
        end
    end.

(** The whole [for col in needed_columns] loop. *)
Definition resolve_columns
    (table : list (string * list string)) (cols : list string) (ask : console)
    (needed : list string) : state :=
  fold_left (resolve_column table cols ask) needed initial.

(** [needed_columns] of [bankfiles.py]: Amount is appended only when a column
    of exactly that name is there. *)
Definition needed_columns (cols : list string) : list string :=
  ["Date"; "Description"] ++ (if mem "Amount" cols then ["Amount"] else []).

(** [needed_columns] of [amex9.py]. *)
Definition needed_columns_amex9 : list string := ["Date"; "Amount"; "Description"].

(** Lines 350-356: the renaming (with an empty mapping nothing is renamed),
    then a column of empty texts for every field left missing. *)
Definition apply_resolution (st : state) (df : frame) : frame :=
  fold_left (fun df col => set_scalar df col (Text ""))
            (missing_cols st) (rename (column_mapping st) df).

(** Lines 268-315 of [amex9.py]. *)
Definition resolve_amex9 (ask : console) (df : frame) : frame * state :=
  let st := resolve_columns alternatives_amex9 (columns df) ask needed_columns_amex9 in
  (apply_resolution st df, st).

(** Lines 299-356 of [bankfiles.py]. *)
Definition resolve_bankfiles (ask : console) (df : frame) : frame * state :=
  let st := resolve_columns alternatives (columns df) ask (needed_columns (columns df)) in
  (apply_resolution st df, st).

(** The answers that leave a field unresolved: not a number, or a number
    outside [1 .. len(columns)]. *)
Definition skips (cols : list string) (answer : option Z) : bool :=
  match answer with
  | Some choice => negb ((1 <=? choice) && (choice <=? Z.of_nat (length cols)))%Z
  | None => true
  end.

(** A field needs the person exactly when neither its name nor any of its
    alternative names is a column. *)
Definition unresolved
    (table : list (string * list string)) (cols : list string) (col : string) : bool :=
  negb (mem col cols) &&
  match first_alternative table cols col with Some _ => false | None => true end.

End Resolver.

(** ** Amounts: the Debit/Credit fallback and the sign flip *)

Module Amounts.
Import PyStr Table.

Section Numeric.

(** How pandas reads a text as a number; [None] when it cannot. *)
Variable parse_number : string -> option float.

(** [pd.to_numeric(..., errors='coerce')] on one cell. *)
Definition to_numeric (c : cell) : float :=
  match c with
  | Num x => x
  | Text s => match parse_number s with Some x => x | None => nan end
  end.

(** [.fillna(0)] on a number. *)
Definition fillna0 (x : float) : float := if is_nan x then 0%float else x.

(** [.fillna(0)] on a cell that may still be a text. *)
Definition fillna0_cell (c : cell) : cell :=
  match c with
  | Num x => Num (fillna0 x)
  | Text _ => c
  end.

(** What lines 365-370 make of one Debit or Credit cell. *)
Definition coerce (c : cell) : float := fillna0 (to_numeric (fillna0_cell c)).

(** Lines 358-378 of [bankfiles.py]; the second component is what is printed. *)
Definition amount_stage (has_amount : bool) (df : frame) : frame * list string :=
  if negb has_amount && negb (has_column "Amount" df) then
    if has_column "Debit" df && has_column "Credit" df then
      let debit := map coerce (default [] (get df "Debit")) in
      let credit := map coerce (default [] (get df "Credit")) in
      let df := set df "Debit" (map Num debit) in
      let df := set df "Credit" (map Num credit) in
      let df := set df "Amount" (map Num (zip_with PrimFloat.sub debit credit)) in
      (df, ["Converting Debit/Credit columns to a single Amount column...";
            "Created Amount column from Debit and Credit."])
    else
      (set_scalar df "Amount" (Num 0%float),
       ["Warning: Could not find 'Amount' column or 'Debit'/'Credit' columns."])
  else (df, []).

End Numeric.

(** The Amount column as numbers; comparing a text cell with [0] is a
    [TypeError]. *)
Fixpoint numbers (cells : series) : result (list float) :=
  match cells with
  | [] => Ok []
  | Num x :: rest =>
      match numbers rest with Ok xs => Ok (x :: xs) | Raise e => Raise e end
  | Text _ :: _ => Raise TypeError
  end.

(** [(new_df["Amount"] < 0).sum()] and [(new_df["Amount"] > 0).sum()] *)
Definition neg_count (amounts : list float) : nat :=
  length (List.filter (fun x => x <? 0)%float amounts).

Definition pos_count (amounts : list float) : nat :=
  length (List.filter (fun x => 0 <? x)%float amounts).

(** Whether the answer typed at "Flip signs? (Y/N): " counts as yes. *)
Definition says_yes (typed : string) : bool := lower (strip typed) =? "y".

(** The sign flip: the new amounts, and whether the question was asked.
    [typed] is what the person types if asked. *)
Definition flip_stage (typed : string) (amounts : list float) : list float * bool :=
  if (pos_count amounts <? neg_count amounts)%nat then
    (if says_yes typed then map PrimFloat.opp amounts else amounts, true)
  else (amounts, false).

(** A reader of plain decimal numerals of at most 15 digits, such as [12],
    [-4.50] or [.5], used for [parse_number] in the examples; pandas reads
    further forms. *)
Definition digit (c : ascii) : option Z :=
  let n := Z.of_N (N_of_ascii c) in
  if ((48 <=? n) && (n <=? 57))%Z then Some (n - 48)%Z else None.

Fixpoint read_digits (s : string) (acc : Z) : option Z :=
  match s with
  | EmptyString => Some acc
  | String c s' =>
      match digit c with
      | Some d => read_digits s' (10 * acc + d)%Z
      | None => None
      end
  end.

Definition float_of_Z (n : Z) : float := PrimFloat.of_uint63 (Uint63.of_Z n).

Definition plain_decimal (s : string) : option float :=
  let negative := startswith "-" s in
  let body := if negative then String.substring 1 (String.length s) s else s in
  let sign := fun x : float => if negative then (- x)%float else x in
  match split "." body with
  | [whole] =>
      if (whole =? "") || (15 <? String.length whole)%nat then None
      else option_map (fun n => sign (float_of_Z n)) (read_digits whole 0%Z)
  | [whole; fraction] =>
      let all := whole +:+ fraction in
      if (all =? "") || (15 <? String.length all)%nat then None
      else option_map
             (fun n => sign (float_of_Z n / float_of_Z (10 ^ Z.of_nat (String.length fraction)))%float)
             (read_digits all 0%Z)
  | _ => None
  end.

End Amounts.

(** ** Payment method: [determine_payment_method] and the VACU override *)

Module Payment.
Import PyStr Table.

(** What the second look at the file finds.  [text] is what
    [open(file_path, 'r', errors='ignore').read()] returns and [workbook] the
    sheets of [pd.ExcelFile(file_path)] as [read_excel(header=None)] gives
    them, one column after the other; [None] is a call that raises. *)
Record source := mk_source {
  text : option string;
  workbook : option (list (option (list series)))
}.

Definition marker : string := "Platinum Card".

(** ["Platinum Card" in str(val)]: the text of a number is made of digits, a
    sign, a point, an exponent, or is [nan] or [inf], and never holds the
    marker. *)
Definition cell_has_marker (c : cell) : bool :=
  match c with
  | Text s => contains marker s
  | Num _ => false
  end.

(** The first loop, over the columns of the frame already loaded. *)
Definition frame_has_marker (df_content : frame) : bool :=
  existsb (fun col => existsb cell_has_marker (snd col)) df_content.

(** The loop over the sheets: a sheet that cannot be read ends the search
    through the [except] clause. *)
Fixpoint sheets_have_marker (sheets : list (option (list series))) : bool :=
  match sheets with
  | [] => false
  | None :: _ => false
  | Some sheet :: rest =>
      if existsb (existsb cell_has_marker) sheet then true else sheets_have_marker rest
  end.

(** Lines 92-116: the look at the whole file, chosen by the extension. *)
Definition file_has_marker (file_path : string) (src : source) : bool :=
  let p := lower file_path in
  if endswith ".xlsx" p || endswith ".xls" p then
    match workbook src with
    | Some sheets => sheets_have_marker sheets
    | None => false
    end
  else if endswith ".csv" p then
    match text src with
    | Some file_content => contains marker file_content
    | None => false
    end
  else false.

(** The variable [platinum_found] when line 119 is reached. *)
Definition platinum_found (file_path : string) (df_content : frame) (src : source) : bool :=
  let found := frame_has_marker df_content in
  if negb found then file_has_marker file_path src else found.

Definition determine_payment_method
    (file_path : string) (df_content : frame) (src : source) : string :=
  let payment_method := "" in
  let payment_method :=
    if contains "chase" (lower (basename file_path)) then "chase" else payment_method in
  if platinum_found file_path df_content src then "amex" else payment_method.

Definition vacu_columns : list string :=
  ["Account Number"; "Post Date"; "Check"; "Description";
   "Debit"; "Credit"; "Status"; "Balance"].

(** [all(col in df.columns for col in vacu_columns)], on the columns as read. *)
Definition is_vacu_file (cols : list string) : bool :=
  forallb (fun col => mem col cols) vacu_columns.

(** Lines 443-450 of [bankfiles.py]: the label written in the
    "payment method" column.  [cols] are the columns as read, [df] the frame
    at line 444. *)
Definition payment_method_label
    (csv_file : string) (cols : list string) (df : frame) (src : source) : string :=
  let payment_method := determine_payment_method csv_file df src in
  if is_vacu_file cols then "vacu" else payment_method.

End Payment.

(** ** The ledger: [update_master_file] *)

Module Ledger.
Import PyStr Table.

(** The two pandas calls on the ledger file: the text that
    [master_df.to_csv(master_filename, index=False)] writes, and what
    [pd.read_csv(master_filename)] makes of a text. *)
Record codec := mk_codec {
  to_csv : frame -> string;
  read_csv : string -> result frame
}.

(** [df[c]] for the concatenation: a column the frame lacks is all missing
    values. *)
Definition column_or_missing (df : frame) (c : string) : series :=
  default (repeat (Num nan) (nrows df)) (get df c).

(** [pd.concat([master_df, new_df], ignore_index=True)]: the columns of the
    first frame, then those only the second has; in each the cells of the
    first frame followed by the cells of the second. *)
Definition concat (master_df new_df : frame) : frame :=
  let names :=
    columns master_df ++
    List.filter (fun c => negb (has_column c master_df)) (columns new_df) in
  map (fun c => (c, column_or_missing master_df c ++ column_or_missing new_df c)) names.

(** How writing the file may go wrong: the file cannot be opened, or the
    write stops after [k] characters. *)
Inductive fault :=
| NoFault
| OpenFails
| WriteFailsAfter (k : nat).

(** [to_csv] opens the ledger path itself for writing, which empties the
    file, and writes the text from its start; there is no temporary file and
    no rename.  The disk is the content of the ledger file, [None] when there
    is no such file. *)
Definition write_file (f : fault) (content : string) (disk : option string)
  : result unit * option string :=
  match f with
  | NoFault => (Ok tt, Some content)
  | OpenFails => (Raise OSError, disk)
  | WriteFailsAfter k => (Raise OSError, Some (String.substring 0 k content))
  end.

(** [update_master_file(new_df)]: the outcome and the disk afterwards. *)
Definition update_master_file
    (c : codec) (f : fault) (new_df : frame) (disk : option string)
  : result unit * option string :=
  match disk with
  | Some old_text =>
      match read_csv c old_text with
      | Ok master_df => write_file f (to_csv c (concat master_df new_df)) disk
      | Raise e => (Raise e, disk)
      end
  | None => write_file f (to_csv c new_df) disk
  end.


(** The records of a frame: row [i] holds the [i]-th cell of every column. *)
Definition row (df : frame) (i : nat) : list cell :=
  map (fun col => nth i (snd col) (Num nan)) df.

Definition rows (df : frame) : list (list cell) :=
  map (row df) (seq 0 (nrows df)).

(** Every column has one cell per row, and no two columns share a name. *)
Definition well_formed (df : frame) : Prop :=
  NoDup (columns df) /\ Forall (fun col => length (snd col) = nrows df) df.

(** A comma-separated rendering without quoting, for frames of text cells:
    a header line and one line per row.  It stands in for pandas in the
    examples. *)
Definition newline : string := String "010"%char "".

Definition cell_text (c : cell) : string :=
  match c with
  | Text s => s
  | Num _ => "nan"
  end.

Definition plain_to_csv (df : frame) : string :=
  join "" (map (fun line => line +:+ newline)
               (join "," (columns df) :: map (fun r => join "," (map cell_text r)) (rows df))).

Definition lines (content : string) : list string :=
  let pieces := split "010"%char content in
  if List.last pieces "" =? "" then removelast pieces else pieces.

Definition plain_read_csv (content : string) : result frame :=
  match lines content with
  | [] => Raise OtherError
  | header :: body =>
      let records := map (split ","%char) body in
      Ok (imap (fun j name => (name, map (fun r => Text (nth j r "")) records))
               (split ","%char header))
  end.

Definition plain_csv : codec := mk_codec plain_to_csv plain_read_csv.

End Ledger.

(** ** The ledger file as pandas writes and reads it *)

Module PandasCsv.
Import PyStr Table Amounts Ledger.

(** [DataFrame.to_csv(path, index=False)] and [pd.read_csv(path)] with their
    defaults, as far as the samples need them: a comma between fields, a line
    feed after each record, a field in double quotes when it holds a comma, a
    quote or a line break, a missing value written as the empty field; on
    reading, blank lines skipped, the default missing-value markers (the
    empty field among them) read as a missing value, and a column read as
    numbers when every field of it that is not missing is a number.  Outside
    this rendering: columns of whole numbers only (pandas keeps them as
    integers), numbers that Python prints with an exponent, columns of
    [True]/[False], repeated or empty column names, and a first record longer
    than the header. *)























End PandasCsv.

(** ** The column resolution of [process_excel_file] *)

Module Excel.
Import PyStr Table Resolver.

Definition needed_cols : list string :=
  ["Date"; "Amount"; "Description"; "Appears On Your Statement As"].

(** [[col for col in needed_cols if col not in df.columns]] *)
Definition missing_of (df : frame) : list string :=
  List.filter (fun col => negb (has_column col df)) needed_cols.

(** One pass of the loop of lines 164-174: the mapping so far and the fields
    asked for.  A number out of range or a text that is no number maps
    nothing. *)
Definition ask_column (cols : list string) (ask : console)
    (st : gmap string string * list string) (col : string)
  : gmap string string * list string :=
  let asked := snd st ++ [col] in
  match ask col cols with
  | Some choice =>
      let idx := (choice - 1)%Z in
      if ((0 <=? idx) && (idx <? Z.of_nat (length cols)))%Z then
        match cols !! Z.to_nat idx with
        | Some chosen => (<[chosen := col]> (fst st), asked)
        | None => (fst st, asked)
        end
      else (fst st, asked)
  | None => (fst st, asked)
  end.

(** Lines 150-186: the frame with the four needed columns, and the fields the
    person was asked for. *)
Definition resolve_excel (ask : console) (df : frame) : frame * list string :=
  let missing_cols := missing_of df in
  let renamed :=
    match missing_cols with
    | [] => (df, [])
    | _ :: _ =>
        let df :=
          if negb (has_column "Description" df) && has_column "DESCRIPTION" df
          then rename {["DESCRIPTION" := "Description"]} df else df in
        let looped := fold_left (ask_column (columns df) ask) missing_cols (∅, []) in
        (rename (fst looped) df, snd looped)
    end in
  let missing_cols := missing_of (fst renamed) in
  (fold_left (fun df col => set_scalar df col (Text "")) missing_cols (fst renamed),
   snd renamed).

End Excel.

(** ** Choosing and dispatching files: [list_files], [select_file],
    [process_file], and the statement label of a CSV file *)

Module Files.
Import PyStr.

(** [s.rfind(c)] for one character: the last index where it stands, [-1]
    when it stands nowhere. *)
Fixpoint rfind (c : ascii) (s : string) : Z :=
  match s with
  | EmptyString => (-1)%Z
  | String a s' =>
      let later := rfind c s' in
      if (0 <=? later)%Z then (later + 1)%Z
      else if Ascii.eqb a c then 0%Z else (-1)%Z
  end.

(** [s[:n]] and [s[n:]] for an index [n >= 0]. *)
Fixpoint take (n : nat) (s : string) : string :=
  match n, s with
  | S n', String c s' => String c (take n' s')
  | _, _ => EmptyString
  end.

Fixpoint drop (n : nat) (s : string) : string :=
  match n, s with
  | S n', String _ s' => drop n' s'
  | _, _ => s
  end.

(** [os.path.splitext] of [posixpath]: the extension starts at the last dot
    of the last path component, unless only dots stand before it there. *)
Definition splitext (p : string) : string * string :=
  let sepIndex := rfind "/" p in
  let dotIndex := rfind "." p in
  if (sepIndex <? dotIndex)%Z then
    let leading :=
      take (Z.to_nat (dotIndex - (sepIndex + 1))) (drop (Z.to_nat (sepIndex + 1)) p) in
    if existsb (fun c => negb (Ascii.eqb c ".")) (list_ascii_of_string leading)
    then (take (Z.to_nat dotIndex) p, drop (Z.to_nat dotIndex) p)
    else (p, "")
  else (p, "").

(** Lines 271-277 of [process_csv_file]: the statement label made of the file
    name, which [amex9.py] keeps and [bankfiles.py] falls back on when the
    dates give no range. *)
Definition csv_statement_string (csv_file : string) : string :=
  let base_name := basename csv_file in
  let statement_string := fst (splitext base_name) in
  if (28 <? String.length statement_string)%nat
  then drop (String.length statement_string - 28) statement_string
  else statement_string.

(** [glob.glob('*' + ext)] over the names of the current directory: the names
    that end with [ext] and do not start with a dot, in directory order. *)
Definition glob_star (ext : string) (names : list string) : list string :=
  List.filter (fun name => negb (startswith "." name) && endswith ext name) names.

(** [list_files()] of [bankfiles.py]. *)
Definition list_files (names : list string) : list string :=
  (glob_star ".xlsx" names ++ glob_star ".xls" names) ++
  (glob_star ".csv" names ++ glob_star ".CSV" names).

(** [list_files(file_type)] of [amex9.py]. *)
Definition list_files_amex9 (file_type : string) (names : list string) : list string :=
  if lower file_type =? "excel" then glob_star ".xlsx" names ++ glob_star ".xls" names
  else if lower file_type =? "csv" then glob_star ".csv" names ++ glob_star ".CSV" names
  else [].

(** [manual_path if manual_path else None] after [input(...).strip()]. *)
Definition manual_path (typed : string) : option string :=
  let path := strip typed in
  if path =? "" then None else Some path.

(** [select_file()] given the files listed.  [choice] is what [int(choice)]
    makes of the number typed ([None] for the [ValueError]) and [typed_path]
    what is typed when a path is asked for. *)
Definition select_file
    (files : list string) (choice : option Z) (typed_path : string) : option string :=
  match files with
  | [] => manual_path typed_path
  | _ :: _ =>
      match choice with
      | None => None
      | Some choice_num =>
          if (choice_num =? 0)%Z then None
          else if ((1 <=? choice_num) && (choice_num <=? Z.of_nat (length files)))%Z
          then files !! Z.to_nat (choice_num - 1)
          else if (choice_num =? Z.of_nat (length files) + 1)%Z then manual_path typed_path
          else None
      end
  end.

(** Where [process_file] sends a path. *)
Inductive route :=
| NoFileSelected
| ExcelFlow
| CsvFlow
| Unsupported (file_extension : string).

Definition process_file (file_path : string) : route :=
  if file_path =? "" then NoFileSelected
  else
    let file_extension := lower (snd (splitext file_path)) in
    if existsb (String.eqb file_extension) [".xlsx"; ".xls"] then ExcelFlow
    else if file_extension =? ".csv" then CsvFlow
    else Unsupported file_extension.

(** [main()] of [bankfiles.py]: where the selected file goes, [None] when
    nothing is processed. *)
Definition main (names : list string) (choice : option Z) (typed_path : string)
  : option route :=
  match select_file (list_files names) choice typed_path with
  | Some file_path => if file_path =? "" then None else Some (process_file file_path)
  | None => None
  end.

(** A name of a directory entry holds no slash. *)
Definition no_slash (name : string) : bool :=
  negb (existsb (Ascii.eqb "/"%char) (list_ascii_of_string name)).

End Files.

(** ** The composed description of [process_csv_file] *)

Module Description.
Import PyStr Table.

Section Text.

(** [str(x)] for a number, as [astype(str)] writes it. *)
Variable float_str : float -> string.

(** [.astype(str)] on one cell. *)
Definition astype_str (c : cell) : string :=
  match c with
  | Text s => s
  | Num x => float_str x
  end.

(** [.fillna("")] on one cell. *)
Definition fillna_empty (c : cell) : cell :=
  match c with
  | Num x => if is_nan x then Text "" else c
  | Text _ => c
  end.

(** [next((c for c in df.columns if c in names), None)] *)
Definition first_column_among (names : list string) (df : frame) : option string :=
  List.find (fun c => mem c names) (columns df).

(** The optional part of a column found by [first_column_among]: its cells
    with the missing ones emptied, as texts. *)
Definition optional_part (found : option string) (df : frame) : list (list string) :=
  match found with
  | Some c => [map (fun cell => astype_str (fillna_empty cell)) (default [] (get df c))]
  | None => []
  end.

(** Lines 380-393: [description_parts]; [None] is the [KeyError] of
    [df["Description"]]. *)
Definition description_parts (df : frame) : option (list (list string)) :=
  let category_col := first_column_among ["Category"; "CATEGORY"] df in
  let type_col := first_column_among ["Type"; "TYPE"; "Transaction Type"] df in
  match get df "Description" with
  | None => None
  | Some cells =>
      Some ([map astype_str cells] ++ optional_part category_col df ++ optional_part type_col df)
  end.

End Text.

(** Lines 397-403: the loop over [enumerate(description_parts)], [i] being the
    index of the next part and [description] the column so far. *)
Fixpoint combine_from (i : nat) (description : list string) (parts : list (list string))
  : list string :=
  match parts with
  | [] => description
  | part :: rest =>
      let description :=
        if (0 <? i)%nat
        then zip_with (fun so_far p => so_far +:+ ", " +:+ strip p) description part
        else map strip part in
      combine_from (S i) description rest
  end.

(** The column [description] of a frame of [n] rows. *)
Definition combine (parts : list (list string)) (n : nat) : list string :=
  combine_from 0 (repeat "" n) parts.

End Description.

(** ** Sample inputs *)

Module Samples.
Import Table.

(** A CSV whose amount column is headed [AMOUNT]. *)
Definition upper_amount_file : frame :=
  [ ("Date", [Text "01/02/24"; Text "01/03/24"]);
    ("AMOUNT", [Num 4.5%float; Num (-12)%float]);
    ("Description", [Text "STARBUCKS #123"; Text "REFUND"]) ].


Definition new_batch : frame :=
  [ ("Date", [Text "02/01/24"]);
    ("Amount", [Text "-20.0"]);
    ("description", [Text "SHELL OIL"]);
    ("statement", [Text "02/01/24 to 02/01/24"]);
    ("vendor", [Text "Shell"]);
    ("category", [Text "Auto"]);
    ("tag", [Text "gas"]);
    ("payment method", [Text "amex"]) ].



End Samples.

(** * Properties *)

(** ** Facts about the string operations *)

Section StringFacts.
Import PyStr.

Lemma startswith_spec p s :
  startswith p s = true <-> exists rest, s = p +:+ rest.
Proof.
  revert s; induction p as [|a p IH]; intros s; simpl.
  - split; [intros _; exists s; reflexivity | reflexivity].
  - destruct s as [|b s].
    + split; [discriminate | intros [rest H]; discriminate].
    + rewrite andb_true_iff, IH. split.
      * intros [Hab [rest ->]]. apply Ascii.eqb_eq in Hab as ->. now exists rest.
      * intros [rest H]. injection H as -> ->. split; [apply Ascii.eqb_refl | now exists rest].
Qed.

Lemma contains_spec needle hay :
  contains needle hay = true <-> substring_of needle hay.
Proof.
  unfold substring_of. induction hay as [|c hay IH]; simpl.
  - rewrite orb_false_r, startswith_spec. split.
    + intros [rest H]. exists "", rest. exact H.
    + intros [[|b before] [after H]]; [now exists after | discriminate].
  - rewrite orb_true_iff, startswith_spec, IH. split.
    + intros [[rest H] | (before & after & H)].
      * exists "", rest. exact H.
      * exists (String c before), after. simpl. now rewrite H.
    + intros [[|b before] [after H]].
      * left. now exists after.
      * right. simpl in H. injection H as _ H. now exists before, after.
Qed.

(** The empty text occurs in every text: ['' in d] is [True]. *)
Lemma contains_empty hay : contains "" hay = true.
Proof. destruct hay; reflexivity. Qed.

Lemma split_nonempty sep s : split sep s <> [].
Proof.
  destruct s as [|c s]; simpl; [discriminate|].
  destruct (Ascii.eqb c sep); [discriminate|].
  destruct (split sep s); discriminate.
Qed.

Lemma startswith_first_differs a b p q s :
  a <> b -> startswith (String a p) s = true -> startswith (String b q) s = false.
Proof.
  intros Hne H. destruct s as [|c s]; simpl in *; [discriminate|].
  apply andb_true_iff in H as [H _]. apply Ascii.eqb_eq in H. subst c.
  destruct (Ascii.eqb b a) eqn:Hba; [|reflexivity].
  apply Ascii.eqb_eq in Hba. congruence.
Qed.

End StringFacts.

(** ** The classifier *)

Section ClassifierFacts.
Import PyStr Classifier.

Lemma rule_matches_spec d r : rule_matches d r = true <-> all_keywords_in r d.
Proof.
  unfold rule_matches, all_keywords_in. rewrite forallb_forall.
  split; intros H kw Hkw; apply contains_spec, H, Hkw.
Qed.

Lemma rule_matches_false d r : rule_matches d r = false <-> ~ all_keywords_in r d.
Proof.
  rewrite <- rule_matches_spec. destruct (rule_matches d r); split; congruence.
Qed.

(** The loop returns at the first matching rule, or falls through. *)
Lemma match_rules_cases d rules :
  (exists earlier r later,
      rules = earlier ++ r :: later /\
      forallb (fun r' => negb (rule_matches d r')) earlier = true /\
      rule_matches d r = true /\
      match_rules d rules = rule_triple r)
  \/ (forallb (fun r' => negb (rule_matches d r')) rules = true /\
      match_rules d rules = ("", "", "")).
Proof.
  induction rules as [|r rest IH]; simpl.
  - right. split; reflexivity.
  - destruct (rule_matches d r) eqn:Hr; simpl.
    + left. exists [], r, rest. repeat split; assumption.
    + destruct IH as [(earlier & r0 & later & -> & Hnone & Hr0 & Hres) | [Hnone Hres]].
      * left. exists (r :: earlier), r0, later. simpl. rewrite Hr. simpl.
        repeat split; assumption.
      * right. split; assumption.
Qed.

(** The loop only looks at the rules that match. *)
Lemma match_rules_filter d rules :
  match_rules d rules = match_rules d (List.filter (rule_matches d) rules).
Proof.
  induction rules as [|r rest IH]; simpl; [reflexivity|].
  destruct (rule_matches d r) eqn:Hr; simpl; [now rewrite Hr | exact IH].
Qed.

Lemma none_match_spec d rules :
  forallb (fun r' => negb (rule_matches d r')) rules = true <->
  Forall (fun r' => ~ all_keywords_in r' d) rules.
Proof.
  rewrite forallb_forall, List.Forall_forall. split; intros H r Hr.
  - apply rule_matches_false. specialize (H r Hr). now destruct (rule_matches d r).
  - specialize (H r Hr). apply rule_matches_false in H. now rewrite H.
Qed.

(** C1. [classify] lowercases the description once, goes through the rules in
    order, and returns the vendor/category/tag of the first rule all of whose
    [&]-separated, stripped keywords are literal substrings of the lowercased
    description; when no rule matches it returns three empty strings. *)
Theorem classify_first_match (rules : list rule) (desc : string) :
  let d := lower desc in
  (exists earlier r later,
      rules = earlier ++ r :: later /\
      Forall (fun r' => ~ all_keywords_in r' d) earlier /\
      all_keywords_in r d /\
      classify rules desc = (vendor r, category r, tag r))
  \/ (Forall (fun r' => ~ all_keywords_in r' d) rules /\
      classify rules desc = ("", "", "")).
Proof.
  intros d. unfold classify. fold d.
  destruct (match_rules_cases d rules)
    as [(earlier & r & later & Hsplit & Hnone & Hr & Hres) | [Hnone Hres]].
  - left. exists earlier, r, later. repeat split; try assumption.
    + now apply none_match_spec.
    + now apply rule_matches_spec.
  - right. split; [now apply none_match_spec | assumption].
Qed.

(** The specification's example: "AMAZON & PRIME" is matched by the keyword
    [amazon&prime] and not by [amazon&video]. *)
Example amazon_prime_matches :
  classify [mk_rule "amazon&video" "Prime Video" "Media" "tv";
            mk_rule "amazon&prime" "Amazon" "Shopping" "prime"] "AMAZON & PRIME"
  = ("Amazon", "Shopping", "prime").
Proof. reflexivity. Qed.

Example starbucks_scenario :
  classify [mk_rule "starbucks" "Starbucks" "Dining" "coffee"] "STARBUCKS #123"
  = ("Starbucks", "Dining", "coffee").
Proof. reflexivity. Qed.

(** Loading lowercases the keyword of every rule and leaves the other three
    cells as they are, in file order; the global holds the same table. *)
Theorem load_lowercases_keywords (rows : list rule) (g : option table) :
  exists rules,
    load_vendor_rules (Rows rows) g = (Ok rules, Some (Loaded rules)) /\
    map keyword rules = map (fun r => lower (keyword r)) rows /\
    map rule_triple rules = map rule_triple rows.
Proof.
  eexists. split; [reflexivity|]. rewrite !map_map. split; reflexivity.
Qed.

(** Without a rule file the first call installs the empty table and every
    description is unclassified. *)
Theorem missing_rules_file_gives_unclassified (desc : string) :
  determine_vendor_cat_tag Missing None desc = (Ok ("", "", ""), Some (Loaded [])).
Proof. reflexivity. Qed.

(** Once the global is assigned the file is not looked at. *)
Lemma determine_vendor_cat_tag_assigned file t desc :
  determine_vendor_cat_tag file (Some t) desc = (classify_with t desc, Some t).
Proof. reflexivity. Qed.

(** What the first call leaves in the global. *)
Lemma determine_vendor_cat_tag_leaves file g desc :
  snd (determine_vendor_cat_tag file g desc) =
  match g with
  | Some t => Some t
  | None =>
      match file with
      | Missing => Some (Loaded [])
      | Unreadable => None
      | NoKeywords nrows => Some (Raw nrows)
      | Rows rows => snd (load_vendor_rules (Rows rows) None)
      end
  end.
Proof. destruct g as [t|]; [reflexivity|]. destruct file; reflexivity. Qed.

(** A call from the state an earlier call left does not change that state. *)
Lemma determine_vendor_cat_tag_settles file g desc desc' :
  let g' := snd (determine_vendor_cat_tag file g desc) in
  snd (determine_vendor_cat_tag file g' desc') = g'.
Proof.
  destruct g as [t|]; [reflexivity|]. destruct file; reflexivity.
Qed.

(** C8. With a rule table loaded, an evaluation returns the triple of
    [classify] and leaves the table as it is, so that two evaluations on the
    same description and rule table return the same triple; and a rule table
    that differs only in rules that do not match the description (removed or
    moved, the matching rules keeping their relative order) gives the same
    result.  From any state of the global, a second call leaves the state the
    first one left, and repeats the answer of a first call that returned; a
    first call that raised is repeated too, except after a rule file with
    neither a keyword column nor a row, where the first call raises on line
    31 and the second finds the table assigned and empty. *)
Theorem classify_deterministic_and_order_insensitive
    (file : rules_file) (rules rules' : list rule) (desc : string) :
  List.filter (rule_matches (lower desc)) rules' =
  List.filter (rule_matches (lower desc)) rules ->
  classify rules' desc = classify rules desc /\
  determine_vendor_cat_tag file (Some (Loaded rules)) desc =
    (Ok (classify rules desc), Some (Loaded rules)) /\
  fst (determine_vendor_cat_tag file (Some (Loaded rules')) desc) =
  fst (determine_vendor_cat_tag file (Some (Loaded rules)) desc) /\
  (forall g,
     let first := determine_vendor_cat_tag file g desc in
     let second := determine_vendor_cat_tag file (snd first) desc in
     snd second = snd first /\
     match fst first with
     | Ok _ => fst second = fst first
     | Raise _ =>
         fst second = fst first \/
         (g = None /\ file = NoKeywords 0 /\ fst second = Ok ("", "", ""))
     end).
Proof.
  intros Hsame.
  assert (Heq : classify rules' desc = classify rules desc).
  { unfold classify.
    rewrite (match_rules_filter _ rules'), (match_rules_filter _ rules).
    now rewrite Hsame. }
  split; [exact Heq|]. split; [reflexivity|]. split.
  - simpl. now rewrite Heq.
  - intros g first second. split; [apply determine_vendor_cat_tag_settles|].
    subst first second. destruct g as [[rs|[|n]]|].
    + reflexivity.
    + reflexivity.
    + now left.
    + destruct file as [| |[|n]|rows]; simpl.
      * reflexivity.
      * now left.
      * right. now repeat split.
      * now left.
      * reflexivity.
Qed.

Lemma classify_deterministic_and_order_insensitive_witness :
  let rules := [mk_rule "uber" "Uber" "Travel" "ride";
                mk_rule "coffee" "Cafe" "Dining" "coffee";
                mk_rule "shell" "Shell" "Auto" "gas";
                mk_rule "coffee&bean" "Bean" "Dining" "beans"] in
  let rules' := [mk_rule "coffee" "Cafe" "Dining" "coffee";
                 mk_rule "shell" "Shell" "Auto" "gas";
                 mk_rule "coffee&bean" "Bean" "Dining" "beans"] in
  classify rules' "COFFEE BEAN CO" = ("Cafe", "Dining", "coffee") /\
  classify rules' "COFFEE BEAN CO" = classify rules "COFFEE BEAN CO" /\
  determine_vendor_cat_tag Missing (Some (Loaded rules)) "COFFEE BEAN CO" =
    (Ok (classify rules "COFFEE BEAN CO"), Some (Loaded rules)).
Proof.
  intros rules rules'. split; [reflexivity|].
  destruct (classify_deterministic_and_order_insensitive Missing rules rules' "COFFEE BEAN CO")
    as (Hsame & Hcall & _); [reflexivity|].
  split; [exact Hsame | exact Hcall].
Defined.

(** Every produced triple is the triple of one matching rule of the table, or
    three empty strings. *)
Lemma classify_from_one_rule rules desc :
  (exists r, In r rules /\ all_keywords_in r (lower desc) /\
             classify rules desc = (vendor r, category r, tag r))
  \/ classify rules desc = ("", "", "").
Proof.
  unfold classify.
  destruct (match_rules_cases (lower desc) rules)
    as [(earlier & r & later & -> & _ & Hr & Hres) | [_ Hres]].
  - left. exists r. split; [apply in_elt|].
    split; [now apply rule_matches_spec | exact Hres].
  - now right.
Qed.

(** C9, as stated, fails: a rule whose tag cell is empty gives a record with
    vendor and category filled and the tag empty, which is neither all three
    populated nor all three empty. *)
Lemma partly_filled_rule_breaks_all_or_nothing :
  let t := classify [mk_rule "starbucks" "Starbucks" "Dining" ""] "STARBUCKS #123" in
  t = ("Starbucks", "Dining", "") /\ populated t = false /\ blank t = false.
Proof. repeat split. Qed.

(** C9, amended. In every record produced by ingestion the vendor, category
    and tag are the three cells of one and the same rule, a rule of the table
    whose keywords all occur in the record's lowercased description, or they
    are all three the empty string. *)
Theorem triple_from_one_rule_or_blank (rules : list rule) (descriptions : list string) :
  Forall2
    (fun desc t =>
       (exists r, In r rules /\ all_keywords_in r (lower desc) /\
                  t = (vendor r, category r, tag r))
       \/ t = ("", "", ""))
    descriptions (annotate rules descriptions).
Proof.
  unfold annotate. induction descriptions as [|desc rest IH]; simpl.
  - constructor.
  - constructor; [apply classify_from_one_rule | exact IH].
Qed.

(** C10. A rule whose keyword cell splits into blank pieces only matches every
    description: placed first, it decides the result whatever follows. *)
Theorem blank_keyword_rule_matches_everything
    (r : rule) (rest : list rule) (desc : string) :
  Forall (fun kw => strip kw = "") (split "&" (keyword r)) ->
  classify (r :: rest) desc = (vendor r, category r, tag r).
Proof.
  intros Hblank. unfold classify. simpl.
  assert (Hr : rule_matches (lower desc) r = true).
  { unfold rule_matches. apply forallb_forall. intros kw Hkw.
    rewrite List.Forall_forall in Hblank. rewrite (Hblank kw Hkw).
    apply contains_empty. }
  now rewrite Hr.
Qed.

Lemma blank_keyword_rule_matches_everything_witness :
  classify [mk_rule " & " "Misc" "Other" "x"; mk_rule "starbucks" "Starbucks" "Dining" "coffee"]
           "STARBUCKS #123"
  = ("Misc", "Other", "x").
Proof.
  apply (blank_keyword_rule_matches_everything
           (mk_rule " & " "Misc" "Other" "x")
           [mk_rule "starbucks" "Starbucks" "Dining" "coffee"] "STARBUCKS #123").
  repeat constructor.
Defined.

End ClassifierFacts.

(** ** Frames *)

Section TableFacts.
Import Table.

Lemma get_replace_same (df : frame) c cells :
  has_column c df = true ->
  get (map (fun col => if fst col =? c then (c, cells) else col) df) c = Some cells.
Proof.
  unfold has_column, columns, mem. induction df as [|[name s] rest IH]; simpl.
  - discriminate.
  - rewrite (String.eqb_sym c name). destruct (name =? c) eqn:Hname; simpl.
    + now rewrite String.eqb_refl.
    + rewrite Hname. exact IH.
Qed.

Lemma get_app_absent (df : frame) c cells :
  has_column c df = false -> get (df ++ [(c, cells)]) c = Some cells.
Proof.
  unfold has_column, columns, mem. induction df as [|[name s] rest IH]; simpl.
  - now rewrite String.eqb_refl.
  - rewrite (String.eqb_sym c name). destruct (name =? c); simpl; [discriminate | exact IH].
Qed.

(** Reading back the column just assigned. *)
Lemma get_set_same (df : frame) c cells : get (set df c cells) c = Some cells.
Proof.
  unfold set. destruct (has_column c df) eqn:Hc.
  - now apply get_replace_same.
  - now apply get_app_absent.
Qed.

End TableFacts.

(** ** The column resolver *)

Section ResolverFacts.
Import Table Resolver.

Variable table : list (string * list string).
Variable cols : list string.
Variable ask : console.

(** A field whose exact name is a column is left alone. *)
Lemma resolve_column_exact st col :
  mem col cols = true -> resolve_column table cols ask st col = st.
Proof. intros H. unfold resolve_column. now rewrite H. Qed.

(** Otherwise the first alternative name that is a column is mapped to the
    field, and nobody is asked. *)
Lemma resolve_column_alternative st col alt :
  mem col cols = false ->
  first_alternative table cols col = Some alt ->
  resolve_column table cols ask st col =
    mk_state (<[alt := col]> (column_mapping st)) (missing_cols st) (prompted st)
  /\ mem alt cols = true /\ In alt (dict_get table col).
Proof.
  intros Hcol Halt. unfold resolve_column. rewrite Hcol, Halt.
  split; [reflexivity|]. unfold first_alternative in Halt.
  apply find_some in Halt as [Hin Hmem]. now split.
Qed.

(** With no exact and no alternative name the person is asked; a skip puts
    the field among the missing ones and maps nothing. *)
Lemma resolve_column_asked st col :
  mem col cols = false ->
  first_alternative table cols col = None ->
  let st' := resolve_column table cols ask st col in
  prompted st' = prompted st ++ [col] /\
  (skips cols (ask col cols) = true ->
   missing_cols st' = missing_cols st ++ [col] /\ column_mapping st' = column_mapping st).
Proof.
  intros Hcol Halt. unfold resolve_column. rewrite Hcol, Halt. simpl.
  destruct (ask col cols) as [choice|]; simpl; [|now split].
  destruct ((0 <=? choice - 1) && (choice - 1 <? Z.of_nat (length cols)))%Z eqn:Hrange.
  - destruct (cols !! Z.to_nat (choice - 1)); simpl; (split; [reflexivity|]); intros Hskip.
    + apply negb_true_iff in Hskip.
      apply andb_true_iff in Hrange as [H1 H2]. apply andb_false_iff in Hskip. lia.
    + now split.
  - now split.
Qed.

Lemma prompted_fold needed st :
  prompted (fold_left (resolve_column table cols ask) needed st) =
  prompted st ++ List.filter (unresolved table cols) needed.
Proof.
  revert st. induction needed as [|col rest IH]; intros st; simpl.
  - now rewrite app_nil_r.
  - rewrite IH. unfold unresolved at 2, resolve_column.
    destruct (mem col cols); simpl; [reflexivity|].
    destruct (first_alternative table cols col); simpl; [reflexivity|].
    destruct (ask col cols) as [choice|]; simpl.
    + destruct ((0 <=? choice - 1) && (choice - 1 <? Z.of_nat (length cols)))%Z;
        [destruct (cols !! Z.to_nat (choice - 1))|]; simpl; now rewrite <- app_assoc.
    + now rewrite <- app_assoc.
Qed.

Lemma missing_fold needed st :
  missing_cols (fold_left (resolve_column table cols ask) needed st) =
  missing_cols st ++
  List.filter (fun col => unresolved table cols col && skips cols (ask col cols)) needed.
Proof.
  revert st. induction needed as [|col rest IH]; intros st; simpl.
  - now rewrite app_nil_r.
  - rewrite IH. unfold unresolved at 2, resolve_column.
    destruct (mem col cols); simpl; [reflexivity|].
    destruct (first_alternative table cols col); simpl; [reflexivity|].
    destruct (ask col cols) as [choice|]; simpl; [|now rewrite <- app_assoc].
    destruct ((0 <=? choice - 1) && (choice - 1 <? Z.of_nat (length cols)))%Z eqn:Hrange.
    + apply andb_true_iff in Hrange as [Hlo Hhi].
      assert (Hin : ((1 <=? choice) && (choice <=? Z.of_nat (length cols)))%Z = true)
        by (apply andb_true_iff; lia).
      rewrite Hin. simpl.
      destruct (lookup_lt_is_Some_2 cols (Z.to_nat (choice - 1))) as [chosen ->]; [lia|].
      reflexivity.
    + assert (Hout : ((1 <=? choice) && (choice <=? Z.of_nat (length cols)))%Z = false)
        by (apply andb_false_iff in Hrange; apply andb_false_iff; lia).
      rewrite Hout. simpl. now rewrite <- app_assoc.
Qed.

(** The loop asks for exactly the unresolved needed fields, in order. *)
Lemma prompted_exactly needed :
  prompted (resolve_columns table cols ask needed) = List.filter (unresolved table cols) needed.
Proof. unfold resolve_columns. now rewrite prompted_fold. Qed.

(** The fields left missing are the asked fields whose answer was a skip. *)
Lemma missing_exactly needed :
  missing_cols (resolve_columns table cols ask needed) =
  List.filter (fun col => unresolved table cols col && skips cols (ask col cols)) needed.
Proof. unfold resolve_columns. now rewrite missing_fold. Qed.

End ResolverFacts.

Section ResolverOfAmex9.
Import Table Resolver.

(** In [amex9.py] each of Date, Amount and Description goes through the three
    steps: the person is asked for exactly those fields that have neither
    their own name nor an alternative name among the columns, and the fields
    filled with empty text are exactly the asked ones answered by a skip. *)
Theorem amex9_asks_only_unresolved (ask : console) (cols : list string) :
  let st := resolve_columns alternatives_amex9 cols ask needed_columns_amex9 in
  prompted st = List.filter (unresolved alternatives_amex9 cols) ["Date"; "Amount"; "Description"] /\
  missing_cols st =
    List.filter (fun col => unresolved alternatives_amex9 cols col && skips cols (ask col cols))
                ["Date"; "Amount"; "Description"].
Proof. split; [apply prompted_exactly | apply missing_exactly]. Qed.

(** The specification's example: with a column Post Date and no column Date,
    Post Date is mapped to Date and nobody is asked; this holds in both
    scripts. *)
Example post_date_resolves_date (ask : console) :
  let cols := ["Post Date"; "Amount"; "Description"] in
  let st := resolve_columns alternatives cols ask (needed_columns cols) in
  let st9 := resolve_columns alternatives_amex9 cols ask needed_columns_amex9 in
  column_mapping st !! "Post Date" = Some "Date" /\ prompted st = [] /\ missing_cols st = [] /\
  column_mapping st9 !! "Post Date" = Some "Date" /\ prompted st9 = [] /\ missing_cols st9 = [].
Proof. repeat split; vm_compute; reflexivity. Qed.

End ResolverOfAmex9.

(** ** Amounts *)

Section AmountFacts.
Import PyStr Table Resolver Amounts Samples.

(** C2 at the input where [bankfiles.py] departs from it: with the columns
    Date, AMOUNT, Description the alternative name AMOUNT is never looked at,
    because Amount is a needed column only when a column of exactly that name
    exists; nothing is mapped, nobody is asked, and the Amount column becomes 0
    in every row.  The resolver of [amex9.py] maps AMOUNT to Amount on the
    same input. *)
Theorem bankfiles_ignores_amount_alternative
    (ask : console) (parse_number : string -> option float) :
  let df := upper_amount_file in
  let resolved := resolve_bankfiles ask df in
  needed_columns (columns df) = ["Date"; "Description"] /\
  column_mapping (snd resolved) !! "AMOUNT" = None /\
  prompted (snd resolved) = [] /\
  missing_cols (snd resolved) = [] /\
  get (fst (amount_stage parse_number (mem "Amount" (columns df)) (fst resolved))) "Amount"
    = Some [Num 0%float; Num 0%float] /\
  column_mapping (snd (resolve_amex9 ask df)) !! "AMOUNT" = Some "Amount" /\
  prompted (snd (resolve_amex9 ask df)) = [] /\
  get (fst (resolve_amex9 ask df)) "Amount" = Some [Num 4.5%float; Num (-12)%float].
Proof. repeat split; vm_compute; reflexivity. Qed.

(** In [amex9.py] a skipped Amount becomes a column of empty texts, and the
    count of negative amounts then raises on the first row. *)
Example amex9_skipped_amount_is_text :
  let df := [ ("Date", [Text "01/02/24"]); ("Description", [Text "COFFEE"]) ] in
  let resolved := resolve_amex9 (fun _ _ => Some 0%Z) df in
  prompted (snd resolved) = ["Amount"] /\
  missing_cols (snd resolved) = ["Amount"] /\
  get (fst resolved) "Amount" = Some [Text ""] /\
  numbers [Text ""] = Raise TypeError.
Proof. repeat split. Qed.

Variable parse_number : string -> option float.

Lemma fillna0_idempotent x : fillna0 (fillna0 x) = fillna0 x.
Proof.
  unfold fillna0. destruct (is_nan x) eqn:Hx; [reflexivity | now rewrite Hx].
Qed.

(** A number cell is kept unless it is missing; a text cell is read as a
    number, and one that cannot be read counts as 0. *)
Lemma coerce_cases c :
  coerce parse_number c =
  match c with
  | Num x => if is_nan x then 0%float else x
  | Text s => match parse_number s with
              | Some x => if is_nan x then 0%float else x
              | None => 0%float
              end
  end.
Proof.
  destruct c as [x|s]; unfold coerce; simpl.
  - apply fillna0_idempotent.
  - destruct (parse_number s); reflexivity.
Qed.

Lemma zip_with_map_both {A B C} (f : B -> B -> C) (g : A -> B) (l k : list A) :
  zip_with f (map g l) (map g k) = zip_with (fun x y => f (g x) (g y)) l k.
Proof.
  revert k. induction l as [|a l IH]; intros [|b k]; simpl; try reflexivity.
  now rewrite IH.
Qed.

(** C3, as stated, fails: a direct Amount column is not coerced.  A cell such
    as "$4.50" stays the text it was, the stage reports nothing, and counting
    the negative amounts afterwards raises instead of seeing a 0. *)
Lemma direct_amount_is_not_coerced :
  let df := [ ("Date", [Text "01/02/24"; Text "01/03/24"]);
              ("Amount", [Text "$4.50"; Text "12.00"]);
              ("Description", [Text "STARBUCKS #123"; Text "BOOKS"]) ] in
  let out := amount_stage plain_decimal true df in
  plain_decimal "$4.50" = None /\
  get (fst out) "Amount" = Some [Text "$4.50"; Text "12.00"] /\
  snd out = [] /\
  numbers [Text "$4.50"; Text "12.00"] = Raise TypeError.
Proof. repeat split. Qed.

(** C3, amended. When a column named Amount is present the stage leaves the
    frame as it is: its cells are used as read, without numeric coercion and
    without any count being reported.  Otherwise, when both a Debit and a
    Credit column are present, each of their cells is coerced to a number,
    missing and unreadable values becoming 0, and every row's amount is its
    debit minus its credit.  When neither holds, every row's amount is 0 and
    the warning is printed. *)
Theorem amount_stage_cases (has_amount : bool) (df : frame) :
  let out := amount_stage parse_number has_amount df in
  if has_amount || has_column "Amount" df then out = (df, [])
  else if has_column "Debit" df && has_column "Credit" df then
    get (fst out) "Amount" =
      Some (zip_with (fun d c => Num (coerce parse_number d - coerce parse_number c)%float)
                     (default [] (get df "Debit")) (default [] (get df "Credit")))
    /\ coerce parse_number (Num nan) = 0%float
    /\ (forall s, coerce parse_number (Text s) =
                  match parse_number s with
                  | Some x => if is_nan x then 0%float else x
                  | None => 0%float
                  end)
  else
    get (fst out) "Amount" = Some (repeat (Num 0%float) (nrows df))
    /\ snd out = ["Warning: Could not find 'Amount' column or 'Debit'/'Credit' columns."].
Proof.
  unfold amount_stage.
  destruct has_amount; simpl; [reflexivity|].
  destruct (has_column "Amount" df); simpl; [reflexivity|].
  destruct (has_column "Debit" df && has_column "Credit" df); simpl.
  - rewrite get_set_same. split; [|split].
    + f_equal. rewrite zip_with_map_both.
      generalize (default [] (get df "Debit")) (default [] (get df "Credit")).
      induction l as [|d l IH]; intros [|c k]; simpl; try reflexivity.
      now rewrite IH.
    + reflexivity.
    + intros s. apply (coerce_cases (Text s)).
  - unfold set_scalar. rewrite get_set_same. now split.
Qed.

(** C4. The question is asked exactly when the strictly negative amounts
    outnumber the strictly positive ones; a yes negates every amount of the
    batch, the positive ones too, and otherwise the batch is unchanged: the
    flip never touches only some of the rows. *)
Theorem flip_is_all_or_nothing (typed : string) (amounts : list float) :
  let out := fst (flip_stage typed amounts) in
  let asked := snd (flip_stage typed amounts) in
  (asked = true <-> pos_count amounts < neg_count amounts) /\
  out = (if asked && says_yes typed then map PrimFloat.opp amounts else amounts) /\
  (out = map PrimFloat.opp amounts \/ out = amounts) /\
  length out = length amounts.
Proof.
  unfold flip_stage.
  destruct (pos_count amounts <? neg_count amounts)%nat eqn:Hcmp; simpl.
  - apply Nat.ltb_lt in Hcmp.
    destruct (says_yes typed); simpl;
      repeat split; auto; try (now rewrite length_map); now left + now right.
  - apply Nat.ltb_ge in Hcmp.
    repeat split; auto; try discriminate; try lia.
Qed.

(** The specification's example: three negative amounts and one positive;
    a yes negates all four. *)
Example three_negative_one_positive :
  flip_stage "Y" [(-4.5)%float; (-20)%float; 7%float; (-1)%float]
  = ([4.5%float; 20%float; (-7)%float; 1%float], true).
Proof. reflexivity. Qed.

Example no_question_when_positive_dominates :
  flip_stage "y" [4.5%float; (-20)%float; 7%float; 0%float; nan]
  = ([4.5%float; (-20)%float; 7%float; 0%float; nan], false).
Proof. reflexivity. Qed.

End AmountFacts.

(** ** Payment method *)

Section PaymentFacts.
Import PyStr Table Payment.

Lemma mem_spec name names : mem name names = true <-> In name names.
Proof.
  unfold mem. rewrite existsb_exists. split.
  - intros (x & Hin & Heq). apply String.eqb_eq in Heq. now subst.
  - intros Hin. exists name. split; [exact Hin | apply String.eqb_refl].
Qed.

Lemma is_vacu_file_spec cols :
  is_vacu_file cols = true <-> Forall (fun col => In col cols) vacu_columns.
Proof.
  unfold is_vacu_file. rewrite forallb_forall, List.Forall_forall.
  split; intros H col Hcol; apply mem_spec, H, Hcol.
Qed.

(** The marker anywhere in the text of a file named [*.csv] is found. *)
Lemma csv_text_marker_found file_path df file_content book :
  endswith ".csv" (lower file_path) = true ->
  substring_of marker file_content ->
  platinum_found file_path df (mk_source (Some file_content) book) = true.
Proof.
  intros Hext Hsub. unfold platinum_found.
  destruct (frame_has_marker df); simpl; [reflexivity|].
  unfold file_has_marker. simpl.
  assert (Hx : endswith ".xlsx" (lower file_path) || endswith ".xls" (lower file_path) = false).
  { unfold endswith in *.
    change (rev_string "" ".csv") with "vsc." in Hext.
    change (rev_string "" ".xlsx") with "xslx.".
    change (rev_string "" ".xls") with "slx.".
    rewrite (startswith_first_differs "v" "x" "sc." "slx." _),
            (startswith_first_differs "v" "s" "sc." "lx." _);
      [reflexivity | discriminate | exact Hext | discriminate | exact Hext]. }
  rewrite Hx, Hext. now apply contains_spec.
Qed.

(** C5. When all eight VACU columns are present the label is "vacu" whatever
    the file name and content; otherwise it is "amex" when the marker
    "Platinum Card" was found, in the frame or in the second look at the file,
    even if the file name contains "chase"; otherwise "chase" when the
    lowercased base name of the file contains "chase"; otherwise empty. *)
Theorem payment_method_precedence
    (csv_file : string) (cols : list string) (df : frame) (src : source) :
  payment_method_label csv_file cols df src =
    (if is_vacu_file cols then "vacu"
     else if platinum_found csv_file df src then "amex"
     else if contains "chase" (lower (basename csv_file)) then "chase"
     else "")
  /\ (is_vacu_file cols = true <-> Forall (fun col => In col cols) vacu_columns)
  /\ platinum_found csv_file df src =
       frame_has_marker df || file_has_marker csv_file src
  /\ length vacu_columns = 8.
Proof.
  split; [|split; [apply is_vacu_file_spec | split; [|reflexivity]]].
  - unfold payment_method_label, determine_payment_method.
    destruct (is_vacu_file cols); [reflexivity|].
    destruct (platinum_found csv_file df src); reflexivity.
  - unfold platinum_found. now destruct (frame_has_marker df).
Qed.

(** The specification's example: a VACU export whose file name contains
    "chase", and even the marker, is labelled "vacu". *)
Example vacu_beats_chase_and_amex :
  payment_method_label "exports/Chase_2024.csv"
    ["Account Number"; "Post Date"; "Check"; "Description";
     "Debit"; "Credit"; "Status"; "Balance"]
    [("Description", [Text "Platinum Card payment"])]
    (mk_source (Some "Platinum Card") None)
  = "vacu".
Proof. reflexivity. Qed.

Example platinum_overwrites_chase :
  payment_method_label "exports/Chase_2024.csv" ["Date"; "Amount"; "Description"]
    [("Description", [Text "COFFEE"])]
    (mk_source (Some "Statement for Platinum Card,,
Date,Amount,Description
01/02/24,4.5,COFFEE
") None)
  = "amex".
Proof. reflexivity. Qed.

Example chase_by_name_only :
  payment_method_label "exports/CHASE_2024.csv" ["Date"; "Amount"; "Description"]
    [("Description", [Text "COFFEE"])] (mk_source (Some "Date,Amount,Description") None)
  = "chase".
Proof. reflexivity. Qed.

End PaymentFacts.

(** ** The ledger *)

Section LedgerFacts.
Import PyStr Table Ledger PandasCsv Samples.

Lemma get_in (df : frame) c cells :
  get df c = Some cells -> In (c, cells) df.
Proof.
  induction df as [|[name s] rest IH]; simpl; [discriminate|].
  destruct (name =? c) eqn:Hname.
  - apply String.eqb_eq in Hname. intros [= ->]. left. now subst.
  - intros H. right. now apply IH.
Qed.

(** In a frame without repeated names every column is found under its name. *)
Lemma get_own_column (df : frame) col :
  NoDup (columns df) -> In col df -> get df (fst col) = Some (snd col).
Proof.
  induction df as [|[name s] rest IH]; simpl; [intros _ []|].
  intros Hnd [<- | Hin]; simpl.
  - now rewrite String.eqb_refl.
  - apply NoDup_cons in Hnd as [Hfresh Hnd].
    destruct (name =? fst col) eqn:Hname.
    + apply String.eqb_eq in Hname. exfalso. apply Hfresh, list_elem_of_In.
      rewrite Hname. unfold columns. now apply in_map.
    + now apply IH.
Qed.

Lemma frame_by_names (df : frame) :
  NoDup (columns df) ->
  map (fun c => (c, column_or_missing df c)) (columns df) = df.
Proof.
  intros Hnd. unfold columns. rewrite map_map.
  rewrite <- (map_id df) at 2. apply map_ext_in. intros [name s] Hin.
  unfold column_or_missing. now rewrite (get_own_column df (name, s) Hnd Hin).
Qed.

Lemma length_column_or_missing (df : frame) c :
  Forall (fun col => length (snd col) = nrows df) df ->
  length (column_or_missing df c) = nrows df.
Proof.
  intros Hwf. unfold column_or_missing. destruct (get df c) as [cells|] eqn:Hget; simpl.
  - apply get_in in Hget. rewrite List.Forall_forall in Hwf. exact (Hwf _ Hget).
  - apply repeat_length.
Qed.

Lemma has_own_column (df : frame) c : In c (columns df) -> has_column c df = true.
Proof.
  intros Hin. unfold has_column, mem. apply existsb_exists.
  exists c. split; [exact Hin | apply String.eqb_refl].
Qed.

Lemma filter_present (names : list string) (df : frame) :
  (forall c, In c names -> has_column c df = true) ->
  List.filter (fun c => negb (has_column c df)) names = [].
Proof.
  induction names as [|c rest IH]; simpl; intros Hown; [reflexivity|].
  rewrite (Hown c) by now left. simpl. apply IH. intros c' Hc'. apply Hown. now right.
Qed.

(** Two frames with the same columns are concatenated column by column. *)
Lemma concat_same_columns (master_df new_df : frame) :
  columns new_df = columns master_df ->
  concat master_df new_df =
  map (fun c => (c, column_or_missing master_df c ++ column_or_missing new_df c))
      (columns master_df).
Proof.
  intros Hcols. unfold concat. rewrite Hcols.
  now rewrite (filter_present _ _ (has_own_column master_df)), app_nil_r.
Qed.

Lemma seq_from (start len : nat) : seq start len = map (Nat.add start) (seq 0 len).
Proof.
  revert start. induction len as [|len IH]; intros start; simpl; [reflexivity|].
  rewrite Nat.add_0_r. f_equal. rewrite (IH (S start)), (IH 1), map_map.
  apply map_ext. intros i. simpl. lia.
Qed.

(** The records of the concatenation are the records of the first frame
    followed by the records of the second, each list in its own order. *)
Lemma rows_concat (master_df new_df : frame) :
  well_formed master_df -> well_formed new_df ->
  columns new_df = columns master_df ->
  rows (concat master_df new_df) = rows master_df ++ rows new_df.
Proof.
  intros [Hnd1 Hlen1] [Hnd2 Hlen2] Hcols.
  rewrite (concat_same_columns _ _ Hcols).
  set (A := column_or_missing master_df). set (B := column_or_missing new_df).
  assert (HA : forall c, length (A c) = nrows master_df)
    by (intros c; now apply length_column_or_missing).
  assert (HB : forall c, length (B c) = nrows new_df)
    by (intros c; now apply length_column_or_missing).
  assert (Hrow1 : forall i, row master_df i = map (fun c => nth i (A c) (Num nan)) (columns master_df)).
  { intros i. rewrite <- (frame_by_names master_df Hnd1) at 1.
    unfold row. now rewrite map_map. }
  assert (Hrow2 : forall i, row new_df i = map (fun c => nth i (B c) (Num nan)) (columns master_df)).
  { intros i. rewrite <- (frame_by_names new_df Hnd2) at 1.
    unfold row. rewrite map_map, Hcols. reflexivity. }
  assert (Hn : nrows (map (fun c => (c, A c ++ B c)) (columns master_df))
               = nrows master_df + nrows new_df).
  { destruct master_df as [|[name s] rest] eqn:Hm.
    - destruct new_df; [reflexivity | discriminate].
    - simpl. rewrite length_app. f_equal; [apply (HA name) | apply (HB name)]. }
  unfold rows at 1. rewrite Hn, seq_app, map_app. simpl. f_equal.
  - unfold rows. apply map_ext_in. intros i Hi. apply in_seq in Hi.
    rewrite Hrow1. unfold row. rewrite map_map. apply map_ext. intros c. simpl.
    apply app_nth1. rewrite HA. lia.
  - unfold rows. rewrite (seq_from (nrows master_df)), map_map.
    apply map_ext. intros i. rewrite Hrow2. unfold row. rewrite map_map.
    apply map_ext. intros c. simpl. rewrite <- (HA c). apply app_nth2_plus.
Qed.






(** Appending the same batch twice stores its records twice: the ledger does
    not detect duplicates. *)
Theorem append_twice_duplicates (c : codec) (new_df : frame) :
  read_csv c (to_csv c new_df) = Ok new_df ->
  well_formed new_df ->
  let once := snd (update_master_file c NoFault new_df None) in
  let twice := update_master_file c NoFault new_df once in
  twice = (Ok tt, Some (to_csv c (concat new_df new_df))) /\
  rows (concat new_df new_df) = rows new_df ++ rows new_df.
Proof.
  intros Hnew Hwf. simpl. rewrite Hnew. simpl. split; [reflexivity|].
  now apply rows_concat.
Qed.

Lemma append_twice_duplicates_witness :
  rows (concat new_batch new_batch) = rows new_batch ++ rows new_batch.
Proof.
  apply (append_twice_duplicates plain_csv new_batch); [reflexivity|].
  split.
  - apply (bool_decide_eq_true_1 _). reflexivity.
  - repeat constructor.
Defined.





End LedgerFacts.

(** ** Further laws of the classifier *)

Section ClassifierLaws.
Import PyStr Classifier.

Lemma lower_char_keeps_ampersand c :
  Ascii.eqb (lower_char c) "&" = Ascii.eqb c "&".
Proof. destruct c as [[] [] [] [] [] [] [] []]; reflexivity. Qed.

Lemma lower_char_keeps_space c : is_space (lower_char c) = is_space c.
Proof. destruct c as [[] [] [] [] [] [] [] []]; reflexivity. Qed.

Lemma lower_app a b : lower (a +:+ b) = lower a +:+ lower b.
Proof. induction a as [|c a IH]; simpl; [reflexivity | now rewrite IH]. Qed.

Lemma split_lower s : split "&" (lower s) = map lower (split "&" s).
Proof.
  induction s as [|c s IH]; simpl; [reflexivity|].
  rewrite lower_char_keeps_ampersand, IH.
  destruct (Ascii.eqb c "&"); simpl; [reflexivity|].
  destruct (split "&" s); reflexivity.
Qed.

Lemma lstrip_lower s : lstrip (lower s) = lower (lstrip s).
Proof.
  induction s as [|c s IH]; simpl; [reflexivity|].
  rewrite lower_char_keeps_space. now destruct (is_space c).
Qed.

Lemma rstrip_lower s : rstrip (lower s) = lower (rstrip s).
Proof.
  induction s as [|c s IH]; simpl; [reflexivity|].
  rewrite IH, lower_char_keeps_space.
  destruct (rstrip s); simpl; [now destruct (is_space c) | reflexivity].
Qed.

Lemma strip_lower s : strip (lower s) = lower (strip s).
Proof. unfold strip. now rewrite lstrip_lower, rstrip_lower. Qed.

Lemma substring_of_lower needle hay :
  substring_of needle hay -> substring_of (lower needle) (lower hay).
Proof.
  intros (before & after & ->). exists (lower before), (lower after).
  now rewrite !lower_app.
Qed.

Lemma string_app_assoc (a b c : string) : (a +:+ b) +:+ c = a +:+ (b +:+ c).
Proof.
  induction a as [|ch a IH]; [reflexivity|].
  change (String ch ((a +:+ b) +:+ c) = String ch (a +:+ (b +:+ c))). now rewrite IH.
Qed.

Lemma substring_of_trans a b c :
  substring_of a b -> substring_of b c -> substring_of a c.
Proof.
  intros (p1 & q1 & ->) (p2 & q2 & ->).
  exists (p2 +:+ p1), (q1 +:+ q2). now rewrite !string_app_assoc.
Qed.

(** For rule files and descriptions of characters with code points below 256,
    the texts of this development, where lowercasing works character by
    character: matching ignores case on both sides.  A rule whose keywords,
    as written in the rule file, all occur in some spelling of the
    description that differs from it only in letter case, matches once the
    file is loaded. *)
Theorem loaded_rule_matches_any_case (r : rule) (desc desc' : string) :
  lower desc' = lower desc ->
  all_keywords_in r desc' ->
  forall rows g, In r rows ->
  exists rules r',
    load_vendor_rules (Rows rows) g = (Ok rules, Some (Loaded rules)) /\
    In r' rules /\ rule_triple r' = rule_triple r /\
    rule_matches (lower desc) r' = true.
Proof.
  intros Hcase Hall rows g Hin.
  exists (map (fun r => mk_rule (lower (keyword r)) (vendor r) (category r) (tag r)) rows),
         (mk_rule (lower (keyword r)) (vendor r) (category r) (tag r)).
  split; [reflexivity|].
  split; [exact (in_map (fun r => mk_rule (lower (keyword r)) (vendor r) (category r) (tag r))
                        rows r Hin)|].
  split; [reflexivity|].
  apply rule_matches_spec. intros kw Hkw. simpl in Hkw.
  rewrite split_lower in Hkw. apply in_map_iff in Hkw as (kw0 & <- & Hkw0).
  rewrite strip_lower, <- Hcase. apply substring_of_lower, Hall, Hkw0.
Qed.

Lemma loaded_rule_matches_any_case_witness :
  exists rules r',
    load_vendor_rules (Rows [mk_rule "Star & Bucks" "Starbucks" "Dining" "coffee"]) None
      = (Ok rules, Some (Loaded rules)) /\
    In r' rules /\ rule_triple r' = ("Starbucks", "Dining", "coffee") /\
    rule_matches (lower "STARBUCKS #123") r' = true.
Proof.
  apply (loaded_rule_matches_any_case
           (mk_rule "Star & Bucks" "Starbucks" "Dining" "coffee")
           "STARBUCKS #123" "StarBucks #123"); [reflexivity | | now left].
  intros kw [<- | [<- | []]]; apply contains_spec; reflexivity.
Defined.

Lemma rule_matches_in_longer (r : rule) (d d' : string) :
  rule_matches d r = true -> substring_of d d' -> rule_matches d' r = true.
Proof.
  intros Hr Hsub. apply rule_matches_spec. intros kw Hkw.
  apply (substring_of_trans _ d); [|exact Hsub].
  now apply (proj1 (rule_matches_spec d r)).
Qed.

(** Adding text around a description never unmatches a rule: a rule that
    matches a text matches every text that contains it. *)
Theorem rule_matches_longer_description (r : rule) (d d' : string) :
  rule_matches d r = true -> substring_of d d' -> rule_matches d' r = true.
Proof. apply rule_matches_in_longer. Qed.

Lemma rule_matches_longer_description_witness :
  rule_matches "starbucks #123, dining, sale" (mk_rule "bucks&star" "Starbucks" "Dining" "coffee")
  = true.
Proof.
  apply (rule_matches_longer_description _ "starbucks #123"); [reflexivity|].
  apply contains_spec. reflexivity.
Defined.

(** Two rule tables in a row: the second is consulted only when no rule of the
    first matches, so rules appended at the end never change a description
    that an existing rule already matches. *)
Theorem classify_app (rules more : list rule) (desc : string) :
  classify (rules ++ more) desc =
  if existsb (rule_matches (lower desc)) rules then classify rules desc
  else classify more desc.
Proof.
  unfold classify. induction rules as [|r rest IH]; simpl; [reflexivity|].
  destruct (rule_matches (lower desc) r); simpl; [reflexivity | exact IH].
Qed.

(** The rule file is read only while [vendor_rules_df] is [None].  Whatever a
    call has assigned to it stays: later calls classify with that table and
    never look at the file again, whatever has become of it.  Only a
    [read_csv] that itself fails, other than for a missing file, leaves the
    global unassigned, so that the next call tries again.  After a first call
    without a rule file every description stays unclassified.  After a first
    call on a rule file whose keyword column is absent or holds no text (which
    raises on line 31) the table is assigned all the same: every later call
    raises at the first rule, or returns three empty strings when the table
    has no row. *)
Theorem rules_loaded_once (file file' file'' : rules_file)
    (g : option table) (nrows : nat) (desc desc' : string) :
  let first := determine_vendor_cat_tag file g desc in
  match snd first with
  | Some t =>
      determine_vendor_cat_tag file' (snd first) desc' = (classify_with t desc', Some t) /\
      determine_vendor_cat_tag file'' (snd first) desc' = (classify_with t desc', Some t)
  | None => g = None /\ file = Unreadable /\ fst first = Raise OtherError
  end
  /\ determine_vendor_cat_tag file' (snd (determine_vendor_cat_tag Missing None desc)) desc'
     = (Ok ("", "", ""), Some (Loaded []))
  /\ determine_vendor_cat_tag (NoKeywords nrows) None desc
     = (Raise OtherError, Some (Raw nrows))
  /\ determine_vendor_cat_tag file'
       (snd (determine_vendor_cat_tag (NoKeywords nrows) None desc)) desc'
     = (match nrows with 0 => Ok ("", "", "") | S _ => Raise OtherError end,
        Some (Raw nrows)).
Proof.
  split; [|split; [reflexivity | split; [reflexivity | now destruct nrows]]].
  destruct g as [t|]; [now split|].
  destruct file as [| |n|rows]; simpl; now repeat split.
Qed.

End ClassifierLaws.

(** ** Further properties of the amounts *)

Section AmountLaws.
Import PyStr Table Resolver Amounts Payment.

Lemma opp_negative x : (- x <? 0)%float = (0 <? x)%float.
Proof.
  rewrite !ltb_spec, opp_spec. change (Prim2SF 0%float) with (S754_zero false).
  destruct (Prim2SF x) as [sg|sg| |sg m e]; try destruct sg; reflexivity.
Qed.

Lemma opp_positive x : (0 <? - x)%float = (x <? 0)%float.
Proof.
  rewrite !ltb_spec, opp_spec. change (Prim2SF 0%float) with (S754_zero false).
  destruct (Prim2SF x) as [sg|sg| |sg m e]; try destruct sg; reflexivity.
Qed.

Lemma neg_count_opp amounts : neg_count (map PrimFloat.opp amounts) = pos_count amounts.
Proof.
  unfold neg_count, pos_count. induction amounts as [|x rest IH]; simpl; [reflexivity|].
  rewrite opp_negative. destruct (0 <? x)%float; simpl; now rewrite IH.
Qed.

Lemma pos_count_opp amounts : pos_count (map PrimFloat.opp amounts) = neg_count amounts.
Proof.
  unfold neg_count, pos_count. induction amounts as [|x rest IH]; simpl; [reflexivity|].
  rewrite opp_positive. destruct (x <? 0)%float; simpl; now rewrite IH.
Qed.

(** A confirmed flip exchanges the two counts, so the flipped batch has more
    positive than negative amounts and the question is not asked about it
    again. *)
Theorem confirmed_flip_settles (typed typed' : string) (amounts : list float) :
  snd (flip_stage typed amounts) = true ->
  says_yes typed = true ->
  let flipped := fst (flip_stage typed amounts) in
  neg_count flipped = pos_count amounts /\
  pos_count flipped = neg_count amounts /\
  neg_count flipped < pos_count flipped /\
  flip_stage typed' flipped = (flipped, false).
Proof.
  unfold flip_stage.
  destruct (pos_count amounts <? neg_count amounts)%nat eqn:Hcmp; [|discriminate].
  intros _ Hyes. rewrite Hyes. simpl.
  rewrite neg_count_opp, pos_count_opp. apply Nat.ltb_lt in Hcmp.
  repeat split; try assumption.
  assert (Hno : (neg_count amounts <? pos_count amounts)%nat = false) by (apply Nat.ltb_ge; lia).
  now rewrite Hno.
Qed.

Lemma confirmed_flip_settles_witness :
  flip_stage "Y" (fst (flip_stage " y " [(-4.5)%float; (-20)%float; 7%float; nan]))
  = ([4.5%float; 20%float; (-7)%float; nan], false).
Proof.
  apply (confirmed_flip_settles " y " "Y" [(-4.5)%float; (-20)%float; 7%float; nan]);
    reflexivity.
Defined.

Lemma numbers_map_Num xs : numbers (map Num xs) = Ok xs.
Proof. induction xs as [|x xs IH]; simpl; [reflexivity | now rewrite IH]. Qed.

Lemma get_length (df : frame) c cells :
  Forall (fun col => length (snd col) = nrows df) df ->
  get df c = Some cells -> length cells = nrows df.
Proof.
  intros Hwf Hget. apply get_in in Hget. rewrite List.Forall_forall in Hwf.
  exact (Hwf _ Hget).
Qed.

Lemma has_column_get (df : frame) c :
  has_column c df = true -> exists cells, get df c = Some cells.
Proof.
  unfold has_column, columns, mem. induction df as [|[name s] rest IH]; simpl; [discriminate|].
  rewrite (String.eqb_sym c name). destruct (name =? c); simpl; [now exists s | exact IH].
Qed.

(** When the frame has no Amount column, the Amount column the stage makes
    holds numbers only, one per row, so counting the negative and positive
    amounts afterwards cannot raise. *)
Theorem derived_amount_is_numeric
    (parse_number : string -> option float) (df : frame) :
  has_column "Amount" df = false ->
  Forall (fun col => length (snd col) = nrows df) df ->
  exists amounts,
    get (fst (amount_stage parse_number false df)) "Amount" = Some (map Num amounts) /\
    numbers (map Num amounts) = Ok amounts /\
    length amounts = nrows df.
Proof.
  intros Hno Hwf. unfold amount_stage. rewrite Hno. simpl.
  destruct (has_column "Debit" df && has_column "Credit" df) eqn:Hdc.
  - apply andb_true_iff in Hdc as [Hd Hc].
    destruct (has_column_get df "Debit" Hd) as [debit Hdebit].
    destruct (has_column_get df "Credit" Hc) as [credit Hcredit].
    rewrite Hdebit, Hcredit. simpl.
    exists (zip_with PrimFloat.sub (map (coerce parse_number) debit)
                     (map (coerce parse_number) credit)).
    rewrite get_set_same. split; [reflexivity|]. split; [apply numbers_map_Num|].
    rewrite length_zip_with, !length_map.
    rewrite (get_length df _ _ Hwf Hdebit), (get_length df _ _ Hwf Hcredit). lia.
  - exists (repeat 0%float (nrows df)). cbn [fst]. unfold set_scalar. rewrite get_set_same.
    split; [|split; [apply numbers_map_Num | apply repeat_length]].
    now rewrite map_repeat.
Qed.

Lemma derived_amount_is_numeric_witness :
  exists amounts,
    get (fst (amount_stage plain_decimal false
                [ ("Post Date", [Text "01/02/24"; Text "01/03/24"]);
                  ("Debit", [Text "4.50"; Num nan]);
                  ("Credit", [Num nan; Text "n/a"]) ])) "Amount"
    = Some (map Num amounts) /\
    numbers (map Num amounts) = Ok amounts /\
    length amounts = 2.
Proof.
  apply (derived_amount_is_numeric plain_decimal
           [ ("Post Date", [Text "01/02/24"; Text "01/03/24"]);
             ("Debit", [Text "4.50"; Num nan]);
             ("Credit", [Num nan; Text "n/a"]) ]); [reflexivity|].
  repeat constructor.
Defined.

End AmountLaws.

(** ** Further properties of the column resolvers *)

Section ResolverLaws.
Import PyStr Table Resolver Payment Excel.

Lemma columns_set (df : frame) c cells :
  columns (set df c cells) = if has_column c df then columns df else columns df ++ [c].
Proof.
  unfold set. destruct (has_column c df).
  - unfold columns. rewrite map_map. apply map_ext. intros [name s]. simpl.
    destruct (name =? c) eqn:Hname; [|reflexivity].
    apply String.eqb_eq in Hname. now subst.
  - unfold columns. now rewrite map_app.
Qed.

Lemma mem_app name l k : mem name (l ++ k) = mem name l || mem name k.
Proof. unfold mem. apply existsb_app. Qed.

Lemma has_column_set (df : frame) c c' cells :
  has_column c (set df c' cells) = has_column c df || (c =? c').
Proof.
  unfold has_column at 1. rewrite columns_set.
  destruct (has_column c' df) eqn:Hc'.
  - fold (has_column c df). destruct (c =? c') eqn:Heq; [|now rewrite orb_false_r].
    apply String.eqb_eq in Heq. subst. now rewrite Hc'.
  - rewrite mem_app. unfold has_column. f_equal. unfold mem. simpl. now rewrite orb_false_r.
Qed.

Lemma has_column_filled (names : list string) (df : frame) c :
  has_column c (fold_left (fun df col => set_scalar df col (Text "")) names df)
  = has_column c df || mem c names.
Proof.
  revert df. induction names as [|name rest IH]; intros df; simpl.
  - now rewrite orb_false_r.
  - rewrite IH. unfold set_scalar. rewrite has_column_set. unfold mem at 2. simpl.
    now rewrite orb_assoc.
Qed.

Lemma asked_fold cols ask names st :
  snd (fold_left (ask_column cols ask) names st) = snd st ++ names.
Proof.
  revert st. induction names as [|col rest IH]; intros st; simpl.
  - now rewrite app_nil_r.
  - rewrite IH. unfold ask_column.
    destruct (ask col cols) as [choice|]; simpl; [|now rewrite <- app_assoc].
    destruct ((0 <=? choice - 1) && (choice - 1 <? Z.of_nat (length cols)))%Z;
      [destruct (cols !! Z.to_nat (choice - 1))|]; simpl; now rewrite <- app_assoc.
Qed.

(** Whatever is answered, after the resolution of [process_excel_file] the
    four needed columns all exist, so selecting them cannot fail; and the
    person is asked once for each column that was missing at the start, in
    order, Description included even when DESCRIPTION has just been renamed
    to it. *)
Theorem excel_resolution_completes (ask : console) (df : frame) :
  Forall (fun col => has_column col (fst (resolve_excel ask df)) = true) needed_cols /\
  snd (resolve_excel ask df) = List.filter (fun col => negb (has_column col df)) needed_cols.
Proof.
  split.
  - apply List.Forall_forall. intros col Hcol. unfold resolve_excel. cbn [fst].
    match goal with
    | |- has_column col (fold_left _ (missing_of ?d) ?d) = true => generalize d
    end.
    intros d. rewrite has_column_filled.
    destruct (has_column col d) eqn:Hhas; [reflexivity|].
    simpl. apply mem_spec, filter_In. split; [exact Hcol | now rewrite Hhas].
  - unfold resolve_excel. cbn [snd]. fold (missing_of df).
    destruct (missing_of df) as [|col rest] eqn:Hmissing; [reflexivity|].
    cbn [snd]. now rewrite asked_fold.
Qed.

Lemma columns_rename (m : gmap string string) (df : frame) :
  columns (rename m df) = map (fun name => default name (m !! name)) (columns df).
Proof. unfold rename, columns. rewrite !map_map. reflexivity. Qed.

Lemma mem_renamed (m : gmap string string) (names : list string) name target :
  mem name names = true -> default name (m !! name) = target ->
  mem target (map (fun n => default n (m !! n)) names) = true.
Proof.
  intros Hmem <-. apply mem_spec. apply mem_spec in Hmem.
  exact (in_map (fun n => default n (m !! n)) names name Hmem).
Qed.

Lemma resolve_column_chosen table cols (ask : console) st col k chosen :
  mem col cols = false ->
  first_alternative table cols col = None ->
  ask col cols = Some (Z.of_nat k + 1)%Z ->
  cols !! k = Some chosen ->
  resolve_column table cols ask st col =
  mk_state (<[chosen := col]> (column_mapping st)) (missing_cols st) (prompted st ++ [col]).
Proof.
  intros Hcol Halt Hask Hk. unfold resolve_column. rewrite Hcol, Halt, Hask.
  assert (Hlt : k < length cols) by (apply lookup_lt_is_Some; eauto).
  replace (Z.of_nat k + 1 - 1)%Z with (Z.of_nat k) by lia.
  rewrite Nat2Z.id, Hk.
  assert (Hrange : ((0 <=? Z.of_nat k) && (Z.of_nat k <? Z.of_nat (length cols)))%Z = true)
    by (apply andb_true_iff; lia).
  now rewrite Hrange.
Qed.

Lemma unresolved_true table cols col :
  unresolved table cols col = true ->
  mem col cols = false /\ first_alternative table cols col = None.
Proof.
  unfold unresolved. intros H. apply andb_true_iff in H as [Hmem Halt].
  apply negb_true_iff in Hmem. split; [exact Hmem|].
  now destruct (first_alternative table cols col).
Qed.

(** In [amex9.py], answering with the same column for Date, Amount and
    Description maps that column to the last field only: nothing is recorded
    as missing, yet the frame ends without a Date and without an Amount
    column, and the selection of line 343 fails. *)
Theorem same_column_for_every_field (df : frame) (k : nat) (chosen : string) :
  columns df !! k = Some chosen ->
  unresolved alternatives_amex9 (columns df) "Date" = true ->
  unresolved alternatives_amex9 (columns df) "Amount" = true ->
  unresolved alternatives_amex9 (columns df) "Description" = true ->
  let resolved := resolve_amex9 (fun _ _ => Some (Z.of_nat k + 1)%Z) df in
  missing_cols (snd resolved) = [] /\
  has_column "Date" (fst resolved) = false /\
  has_column "Amount" (fst resolved) = false /\
  has_column "Description" (fst resolved) = true.
Proof.
  intros Hk Hd Ha Hs.
  apply unresolved_true in Hd as [Hd1 Hd2]. apply unresolved_true in Ha as [Ha1 Ha2].
  apply unresolved_true in Hs as [Hs1 Hs2].
  unfold resolve_amex9, resolve_columns, needed_columns_amex9. cbn [fold_left].
  rewrite (resolve_column_chosen _ _ _ _ "Date" k chosen Hd1 Hd2 eq_refl Hk).
  rewrite (resolve_column_chosen _ _ _ _ "Amount" k chosen Ha1 Ha2 eq_refl Hk).
  rewrite (resolve_column_chosen _ _ _ _ "Description" k chosen Hs1 Hs2 eq_refl Hk).
  cbn [fst snd missing_cols column_mapping initial]. split; [reflexivity|].
  unfold apply_resolution. cbn [fold_left missing_cols column_mapping].
  set (m := <[chosen := "Description"]> (<[chosen := "Amount"]> (<[chosen := "Date"]> ∅))
            : gmap string string).
  assert (Hm : forall name, default name (m !! name) =
                            if decide (chosen = name) then "Description" else name).
  { intros name. unfold m. destruct (decide (chosen = name)) as [->|Hne].
    - now rewrite lookup_insert_eq.
    - now rewrite !lookup_insert_ne, lookup_empty by exact Hne. }
  assert (Hother : forall target, target <> "Description" ->
             mem target (columns df) = false -> has_column target (rename m df) = false).
  { intros target Hne Habsent. unfold has_column. rewrite columns_rename.
    destruct (mem target (map _ (columns df))) eqn:Hmem; [|reflexivity].
    apply mem_spec, in_map_iff in Hmem as (name & Hname & Hin).
    rewrite Hm in Hname. destruct (decide (chosen = name)); [congruence|].
    subst name. apply mem_spec in Hin. congruence. }
  split; [now apply Hother|]. split; [now apply Hother|].
  unfold has_column. rewrite columns_rename. apply (mem_renamed m _ chosen).
  - apply mem_spec, list_elem_of_In, list_elem_of_lookup. eauto.
  - rewrite Hm. now destruct (decide (chosen = chosen)).
Qed.

Lemma same_column_for_every_field_witness :
  let resolved :=
    resolve_amex9 (fun _ _ => Some 2%Z)
      [ ("When", [Text "01/02/24"]); ("What", [Text "COFFEE"]); ("Value", [Num 4.5%float]) ] in
  missing_cols (snd resolved) = [] /\
  has_column "Date" (fst resolved) = false /\
  has_column "Amount" (fst resolved) = false /\
  has_column "Description" (fst resolved) = true.
Proof.
  apply (same_column_for_every_field
           [ ("When", [Text "01/02/24"]); ("What", [Text "COFFEE"]); ("Value", [Num 4.5%float]) ]
           1 "What"); reflexivity.
Defined.

(** A file with the eight VACU columns goes through the resolver of
    [bankfiles.py] without a question: nothing is asked, nothing is missing,
    and the Date, Description, Debit and Credit columns are all there for the
    amount to be made of Debit and Credit. *)
Theorem vacu_export_needs_no_answers (ask : console) (df : frame) :
  is_vacu_file (columns df) = true ->
  let resolved := resolve_bankfiles ask df in
  prompted (snd resolved) = [] /\
  missing_cols (snd resolved) = [] /\
  Forall (fun col => has_column col (fst resolved) = true)
         ["Date"; "Description"; "Debit"; "Credit"].
Proof.
  intros Hvacu. unfold is_vacu_file, vacu_columns in Hvacu. cbn [forallb] in Hvacu.
  repeat match type of Hvacu with
         | _ && _ = true => let H := fresh "Hcol" in apply andb_true_iff in Hvacu as [H Hvacu]
         end.
  assert (Hstate : exists m : gmap string string,
             resolve_columns alternatives (columns df) ask (needed_columns (columns df))
             = mk_state m [] [] /\
             (forall name, name <> "Post Date" -> m !! name = None) /\
             default "Post Date" (m !! "Post Date") =
               if mem "Date" (columns df) then "Post Date" else "Date").
  { unfold resolve_columns, needed_columns. cbn [app fold_left].
    assert (Htail : forall st,
               fold_left (resolve_column alternatives (columns df) ask)
                         (if mem "Amount" (columns df) then ["Amount"] else []) st = st).
    { intros st. destruct (mem "Amount" (columns df)) eqn:Hamount; cbn [fold_left];
        rewrite ?resolve_column_exact by assumption; reflexivity. }
    rewrite Htail, (resolve_column_exact _ _ _ _ "Description") by assumption.
    unfold resolve_column.
    destruct (mem "Date" (columns df)) eqn:Hdate.
    - exists ∅. split; [reflexivity|]. split; [intros; apply lookup_empty | reflexivity].
    - unfold first_alternative. cbn [dict_get alternatives String.eqb Ascii.eqb Bool.eqb find].
      rewrite Hcol0. exists (<["Post Date" := "Date"]> ∅). split; [reflexivity|]. split.
      + intros name Hne. now rewrite lookup_insert_ne, lookup_empty by congruence.
      + now rewrite lookup_insert_eq. }
  destruct Hstate as (m & Hst & Hkeep & Hpost).
  unfold resolve_bankfiles. rewrite Hst. cbn [fst snd prompted missing_cols].
  split; [reflexivity|]. split; [reflexivity|].
  unfold apply_resolution. cbn [fold_left missing_cols column_mapping].
  assert (Hsame : forall name, name <> "Post Date" -> mem name (columns df) = true ->
                               has_column name (rename m df) = true).
  { intros name Hne Hmem. unfold has_column. rewrite columns_rename.
    apply (mem_renamed m _ name); [exact Hmem | now rewrite Hkeep]. }
  repeat constructor; try (apply Hsame; [discriminate | assumption]).
  destruct (mem "Date" (columns df)) eqn:Hdate.
  - apply Hsame; [discriminate | exact Hdate].
  - unfold has_column. rewrite columns_rename. now apply (mem_renamed m _ "Post Date").
Qed.

Lemma vacu_export_needs_no_answers_witness :
  let resolved :=
    resolve_bankfiles (fun _ _ => None)
      [ ("Account Number", [Text "12"]); ("Post Date", [Text "01/02/24"]); ("Check", [Num nan]);
        ("Description", [Text "COFFEE"]); ("Debit", [Num 4.5%float]); ("Credit", [Num nan]);
        ("Status", [Text "Posted"]); ("Balance", [Num 100%float]) ] in
  prompted (snd resolved) = [] /\
  missing_cols (snd resolved) = [] /\
  Forall (fun col => has_column col (fst resolved) = true)
         ["Date"; "Description"; "Debit"; "Credit"].
Proof.
  apply (vacu_export_needs_no_answers (fun _ _ => None)
           [ ("Account Number", [Text "12"]); ("Post Date", [Text "01/02/24"]);
             ("Check", [Num nan]); ("Description", [Text "COFFEE"]);
             ("Debit", [Num 4.5%float]); ("Credit", [Num nan]);
             ("Status", [Text "Posted"]); ("Balance", [Num 100%float]) ]).
  reflexivity.
Defined.

End ResolverLaws.

(** ** Choosing and dispatching files *)

Section FileLaws.
Import PyStr Files Payment.

Lemma app_cons (c : ascii) (a b : string) : String c a +:+ b = String c (a +:+ b).
Proof. reflexivity. Qed.

Lemma app_empty_r (a : string) : a +:+ "" = a.
Proof. induction a as [|c a IH]; [reflexivity | now rewrite app_cons, IH]. Qed.

Lemma length_app_string (a b : string) :
  String.length (a +:+ b) = String.length a + String.length b.
Proof. induction a as [|c a IH]; [reflexivity | rewrite app_cons; simpl; now rewrite IH]. Qed.

Lemma take_drop n s : take n s +:+ drop n s = s.
Proof.
  revert s. induction n as [|n IH]; intros [|c s]; simpl; try reflexivity.
  now rewrite app_cons, IH.
Qed.

Lemma length_drop n s : String.length (drop n s) = String.length s - n.
Proof.
  revert s. induction n as [|n IH]; intros [|c s]; simpl; try reflexivity; try lia.
  apply IH.
Qed.

Lemma take_app a b : take (String.length a) (a +:+ b) = a.
Proof. induction a as [|c a IH]; simpl; [now destruct b | now rewrite IH]. Qed.

Lemma drop_app a b : drop (String.length a) (a +:+ b) = b.
Proof. induction a as [|c a IH]; simpl; [now destruct b | exact IH]. Qed.

(** The two parts [os.path.splitext] returns always make up the path. *)
Lemma splitext_join p : fst (splitext p) +:+ snd (splitext p) = p.
Proof.
  unfold splitext. destruct (rfind "/" p <? rfind "." p)%Z; simpl; [|apply app_empty_r].
  match goal with |- context [existsb ?f ?l] => destruct (existsb f l) end; simpl.
  - apply take_drop.
  - apply app_empty_r.
Qed.

Lemma rev_string_app acc a b :
  rev_string acc (a +:+ b) = rev_string (rev_string acc a) b.
Proof. revert acc. induction a as [|c a IH]; intros acc; simpl; [reflexivity | apply IH]. Qed.

Lemma rev_string_acc acc s : rev_string acc s = rev_string "" s +:+ acc.
Proof.
  revert acc. induction s as [|c s IH]; intros acc; simpl; [reflexivity|].
  rewrite (IH (String c acc)), (IH (String c "")), string_app_assoc. reflexivity.
Qed.

Lemma rev_string_involutive s : rev_string "" (rev_string "" s) = s.
Proof.
  induction s as [|c s IH]; simpl; [reflexivity|].
  rewrite (rev_string_acc (String c "") s), rev_string_app, IH. reflexivity.
Qed.

(** [s.endswith(suffix)] holds exactly when [s] is some text followed by
    [suffix]. *)
Lemma endswith_spec suffix s :
  endswith suffix s = true <-> exists before, s = before +:+ suffix.
Proof.
  unfold endswith. rewrite startswith_spec. split.
  - intros [rest Hrest]. exists (rev_string "" rest).
    rewrite <- (rev_string_involutive s), Hrest, rev_string_app, rev_string_involutive.
    apply rev_string_acc.
  - intros [before ->]. exists (rev_string "" before).
    rewrite rev_string_app. apply rev_string_acc.
Qed.

Lemma rfind_lower_bound c s : (-1 <= rfind c s)%Z.
Proof.
  induction s as [|a s IH]; simpl; [lia|].
  destruct (0 <=? rfind c s)%Z eqn:H; [lia|]. destruct (Ascii.eqb a c); lia.
Qed.

Lemma rfind_app c a b :
  rfind c (a +:+ b) =
  if (0 <=? rfind c b)%Z then (Z.of_nat (String.length a) + rfind c b)%Z else rfind c a.
Proof.
  induction a as [|ch a IH].
  - change ("" +:+ b) with b. cbn [rfind String.length].
    destruct (0 <=? rfind c b)%Z eqn:H; [reflexivity|].
    pose proof (rfind_lower_bound c b). apply Z.leb_gt in H. lia.
  - rewrite app_cons. cbn [rfind String.length]. rewrite IH.
    destruct (0 <=? rfind c b)%Z eqn:Hb.
    + apply Z.leb_le in Hb.
      assert (H : (0 <=? Z.of_nat (String.length a) + rfind c b)%Z = true) by (apply Z.leb_le; lia).
      rewrite H. lia.
    + reflexivity.
Qed.

Lemma rfind_absent c s :
  existsb (Ascii.eqb c) (list_ascii_of_string s) = false -> rfind c s = (-1)%Z.
Proof.
  induction s as [|a s IH]; simpl; [reflexivity|].
  intros H. apply orb_false_iff in H as [Ha Hs]. rewrite (IH Hs). simpl.
  rewrite Ascii.eqb_sym. now rewrite Ha.
Qed.

Lemma rfind_zero c s : rfind c s = 0%Z -> exists rest, s = String c rest.
Proof.
  destruct s as [|a s]; cbn [rfind]; [discriminate|].
  destruct (0 <=? rfind c s)%Z eqn:H.
  - apply Z.leb_le in H. lia.
  - destruct (Ascii.eqb a c) eqn:Ha; [|discriminate].
    apply Ascii.eqb_eq in Ha. subst. now exists s.
Qed.

(** A name without slash that does not start with a dot and ends with an
    extension of one dot splits into what stands before the extension and
    the extension. *)
Lemma splitext_of_extension before ext :
  no_slash (before +:+ ext) = true ->
  startswith "." (before +:+ ext) = false ->
  rfind "." ext = 0%Z ->
  splitext (before +:+ ext) = (before, ext).
Proof.
  intros Hslash Hdot Hext.
  destruct (rfind_zero _ _ Hext) as [ext' ->].
  destruct before as [|c before]; [discriminate Hdot|].
  rewrite app_cons in Hdot. cbn [startswith] in Hdot. rewrite andb_true_r in Hdot.
  unfold splitext.
  unfold no_slash in Hslash. apply negb_true_iff in Hslash.
  rewrite (rfind_absent _ _ Hslash), rfind_app, Hext.
  change (0 <=? 0)%Z with true. cbv iota. rewrite Z.add_0_r.
  assert (Hlt : (-1 <? Z.of_nat (String.length (String c before)))%Z = true)
    by (apply Z.ltb_lt; lia).
  rewrite Hlt. change (-1 + 1)%Z with 0%Z. rewrite Z.sub_0_r, Nat2Z.id.
  change (Z.to_nat 0) with 0. cbn [drop]. rewrite take_app, drop_app.
  cbn [list_ascii_of_string existsb]. rewrite Ascii.eqb_sym, Hdot. reflexivity.
Qed.

Lemma glob_star_spec ext names name :
  In name (glob_star ext names) <->
  In name names /\ startswith "." name = false /\ exists before, name = before +:+ ext.
Proof.
  unfold glob_star. rewrite filter_In, andb_true_iff, negb_true_iff, endswith_spec. tauto.
Qed.

Lemma process_file_of_extension before ext :
  no_slash (before +:+ ext) = true ->
  startswith "." (before +:+ ext) = false ->
  rfind "." ext = 0%Z ->
  process_file (before +:+ ext) =
    if existsb (String.eqb (lower ext)) [".xlsx"; ".xls"] then ExcelFlow
    else if lower ext =? ".csv" then CsvFlow else Unsupported (lower ext).
Proof.
  intros Hslash Hdot Hext. unfold process_file.
  rewrite (splitext_of_extension _ _ Hslash Hdot Hext). cbn [snd].
  destruct (before +:+ ext =? "") eqn:Hempty; [|reflexivity].
  apply String.eqb_eq in Hempty. destruct before; destruct ext; discriminate.
Qed.

Lemma list_files_route (names : list string) (name : string) :
  Forall (fun n => no_slash n = true) names ->
  In name (list_files names) ->
  (In name (glob_star ".xlsx" names ++ glob_star ".xls" names) /\
   process_file name = ExcelFlow) \/
  (In name (glob_star ".csv" names ++ glob_star ".CSV" names) /\
   process_file name = CsvFlow).
Proof.
  intros Hnames Hin. unfold list_files in Hin. rewrite List.Forall_forall in Hnames.
  apply in_app_or in Hin as [Hin | Hin]; [left | right]; (split; [exact Hin|]);
    apply in_app_or in Hin as [Hin | Hin];
    apply glob_star_spec in Hin as (Hname & Hdot & before & ->);
    rewrite process_file_of_extension; auto.
Qed.

(** Every file [list_files] offers is one [process_file] accepts: the names
    found by the two Excel patterns go to the Excel flow and those found by
    the two CSV patterns go to the CSV flow, none is reported unsupported. *)
Theorem listed_files_are_dispatched (names : list string) (name : string) :
  Forall (fun n => no_slash n = true) names ->
  In name (list_files names) ->
  (In name (glob_star ".xlsx" names ++ glob_star ".xls" names) /\
   process_file name = ExcelFlow) \/
  (In name (glob_star ".csv" names ++ glob_star ".CSV" names) /\
   process_file name = CsvFlow).
Proof. apply list_files_route. Qed.

Lemma listed_files_are_dispatched_witness :
  (In "June.CSV" (glob_star ".xlsx" ["notes.txt"; "June.CSV"; ".old.csv"] ++
                  glob_star ".xls" ["notes.txt"; "June.CSV"; ".old.csv"]) /\
   process_file "June.CSV" = ExcelFlow) \/
  (In "June.CSV" (glob_star ".csv" ["notes.txt"; "June.CSV"; ".old.csv"] ++
                  glob_star ".CSV" ["notes.txt"; "June.CSV"; ".old.csv"]) /\
   process_file "June.CSV" = CsvFlow).
Proof.
  apply (listed_files_are_dispatched ["notes.txt"; "June.CSV"; ".old.csv"] "June.CSV").
  - repeat constructor.
  - simpl. now left.
Defined.

Lemma extension_ends_path p :
  endswith (lower (snd (splitext p))) (lower p) = true.
Proof.
  apply endswith_spec. exists (lower (fst (splitext p))).
  now rewrite <- lower_app, splitext_join.
Qed.

Lemma csv_is_not_excel q :
  endswith ".csv" q = true -> endswith ".xlsx" q || endswith ".xls" q = false.
Proof.
  unfold endswith. intros Hext.
  change (rev_string "" ".csv") with "vsc." in Hext.
  change (rev_string "" ".xlsx") with "xslx.".
  change (rev_string "" ".xls") with "slx.".
  rewrite (startswith_first_differs "v" "x" "sc." "slx." _),
          (startswith_first_differs "v" "s" "sc." "lx." _);
    [reflexivity | discriminate | exact Hext | discriminate | exact Hext].
Qed.

(** The second look at the file agrees with the dispatch: for every path
    [process_file] sends to the CSV flow, [determine_payment_method] searches
    the text of the file, and for every path sent to the Excel flow it
    searches the sheets of the workbook. *)
Theorem dispatch_agrees_with_second_look (file_path : string) (src : source) :
  match process_file file_path with
  | CsvFlow =>
      file_has_marker file_path src =
      match text src with Some content => contains marker content | None => false end
  | ExcelFlow =>
      file_has_marker file_path src =
      match workbook src with Some sheets => sheets_have_marker sheets | None => false end
  | _ => True
  end.
Proof.
  unfold process_file. destruct (file_path =? ""); [exact I|].
  pose proof (extension_ends_path file_path) as Hends.
  cbn [existsb]. destruct (lower (snd (splitext file_path)) =? ".xlsx") eqn:Hxlsx.
  - apply String.eqb_eq in Hxlsx. rewrite Hxlsx in Hends.
    cbn [orb]. unfold file_has_marker. now rewrite Hends.
  - destruct (lower (snd (splitext file_path)) =? ".xls") eqn:Hxls.
    + apply String.eqb_eq in Hxls. rewrite Hxls in Hends.
      cbn [orb]. unfold file_has_marker. rewrite Hends. now rewrite orb_true_r.
    + cbn [orb]. destruct (lower (snd (splitext file_path)) =? ".csv") eqn:Hcsv; [|exact I].
      apply String.eqb_eq in Hcsv. rewrite Hcsv in Hends.
      unfold file_has_marker. now rewrite (csv_is_not_excel _ Hends), Hends.
Qed.

Lemma manual_path_spec typed path :
  manual_path typed = Some path -> path = strip typed /\ path <> "".
Proof.
  unfold manual_path. destruct (strip typed =? "") eqn:Hempty; [discriminate|].
  intros [= <-]. split; [reflexivity|]. now apply String.eqb_neq.
Qed.

Lemma select_file_spec files choice typed path :
  select_file files choice typed = Some path ->
  In path files \/ (path = strip typed /\ path <> "").
Proof.
  unfold select_file. destruct files as [|f files]; [intros H; right; now apply manual_path_spec|].
  destruct choice as [n|]; [|discriminate].
  destruct (n =? 0)%Z; [discriminate|].
  destruct ((1 <=? n) && (n <=? Z.of_nat (length (f :: files))))%Z.
  - intros H. left. apply list_elem_of_In, list_elem_of_lookup. eauto.
  - destruct (n =? Z.of_nat (length (f :: files)) + 1)%Z; [|discriminate].
    intros H. right. now apply manual_path_spec.
Qed.

Lemma process_file_nonempty path : path <> "" -> process_file path <> NoFileSelected.
Proof.
  intros Hne. unfold process_file. apply String.eqb_neq in Hne. rewrite Hne.
  destruct (existsb _ _); [discriminate|]. destruct (_ =? ".csv"); discriminate.
Qed.

(** Whatever is typed, [main] never reports a missing selection and never
    rejects a file picked from its own list: what it processes is a listed
    file, sent to the Excel or the CSV flow, or the path typed by hand, with
    the white space around it removed and not empty. *)
Theorem main_processes_listed_or_typed
    (names : list string) (choice : option Z) (typed_path : string) (r : route) :
  Forall (fun n => no_slash n = true) names ->
  main names choice typed_path = Some r ->
  r <> NoFileSelected /\
  ((exists name, In name (list_files names) /\ r = process_file name /\
                 (r = ExcelFlow \/ r = CsvFlow))
   \/ (strip typed_path <> "" /\ r = process_file (strip typed_path))).
Proof.
  intros Hnames. unfold main.
  destruct (select_file (list_files names) choice typed_path) as [path|] eqn:Hsel;
    [|discriminate].
  destruct (path =? "") eqn:Hempty; [discriminate|]. intros [= <-].
  apply String.eqb_neq in Hempty. split; [now apply process_file_nonempty|].
  apply select_file_spec in Hsel as [Hin | [-> Hne]].
  - left. exists path. split; [exact Hin|]. split; [reflexivity|].
    destruct (list_files_route names path Hnames Hin) as [[_ ->] | [_ ->]]; auto.
  - right. now split.
Qed.

Lemma main_processes_listed_or_typed_witness :
  main ["notes.txt"; "June.CSV"; "May.xlsx"] (Some 2%Z) "" = Some CsvFlow /\
  CsvFlow <> NoFileSelected.
Proof.
  split; [reflexivity|].
  apply (main_processes_listed_or_typed ["notes.txt"; "June.CSV"; "May.xlsx"] (Some 2%Z) "").
  - repeat constructor.
  - reflexivity.
Defined.

(** The statement label made of a CSV file name has at most 28 characters and
    is the end of the base name without its extension; a name of at most 28
    characters is kept whole. *)
Theorem csv_statement_string_is_tail (csv_file : string) :
  let stem := fst (splitext (basename csv_file)) in
  let label := csv_statement_string csv_file in
  String.length label = Nat.min 28 (String.length stem) /\
  (exists before, stem = before +:+ label) /\
  stem +:+ snd (splitext (basename csv_file)) = basename csv_file.
Proof.
  cbv zeta. unfold csv_statement_string.
  set (stem := fst (splitext (basename csv_file))).
  destruct (28 <? String.length stem)%nat eqn:Hlong.
  - apply Nat.ltb_lt in Hlong. split; [rewrite length_drop; lia|].
    split; [|apply splitext_join].
    exists (take (String.length stem - 28) stem). symmetry. apply take_drop.
  - apply Nat.ltb_ge in Hlong. split; [lia|].
    split; [now exists "" | apply splitext_join].
Qed.

End FileLaws.

(** ** The composed description *)

Section DescriptionLaws.
Import PyStr Table Classifier Description.

Lemma substring_of_refl a : substring_of a a.
Proof. exists "", "". now rewrite app_empty_r. Qed.

Lemma substring_of_left a b : substring_of a (a +:+ b).
Proof. exists "", b. reflexivity. Qed.

Lemma substring_of_right a b : substring_of b (a +:+ b).
Proof. exists a, "". now rewrite app_empty_r. Qed.

(** Row [k] of the column the loop builds contains what row [k] held before
    and the stripped text of every later part. *)
Lemma combine_from_row i description parts k so_far :
  description !! k = Some so_far ->
  Forall (fun part : list string => is_Some (part !! k)) parts ->
  exists d,
    combine_from (S i) description parts !! k = Some d /\
    substring_of so_far d /\
    forall part p, In part parts -> part !! k = Some p -> substring_of (strip p) d.
Proof.
  revert i description so_far. induction parts as [|part rest IH];
    intros i description so_far Hk Hall.
  - exists so_far. simpl. split; [exact Hk|]. split; [apply substring_of_refl | intros ? ? []].
  - apply Forall_cons in Hall as [[p Hp] Hrest]. cbn [combine_from Nat.ltb Nat.leb].
    destruct (IH (S i) (zip_with (fun a q => a +:+ ", " +:+ strip q) description part)
                 (so_far +:+ ", " +:+ strip p)) as (d & Hd & Hsub & Hparts).
    { rewrite lookup_zip_with, Hk, Hp. reflexivity. }
    { exact Hrest. }
    exists d. split; [exact Hd|]. split.
    + apply (substring_of_trans _ (so_far +:+ ", " +:+ strip p)); [|exact Hsub].
      apply substring_of_left.
    + intros part' p' [<- | Hin] Hp'.
      * rewrite Hp in Hp'. injection Hp' as <-.
        apply (substring_of_trans _ (so_far +:+ ", " +:+ strip p)); [|exact Hsub].
        apply (substring_of_trans _ (", " +:+ strip p)); apply substring_of_right.
      * now apply (Hparts part').
Qed.

Lemma combine_row parts n k :
  parts <> [] ->
  Forall (fun part : list string => is_Some (part !! k)) parts ->
  exists d,
    combine parts n !! k = Some d /\
    forall part p, In part parts -> part !! k = Some p -> substring_of (strip p) d.
Proof.
  intros Hne Hall. destruct parts as [|first rest]; [congruence|].
  apply Forall_cons in Hall as [[p Hp] Hrest].
  unfold combine. cbn [combine_from Nat.ltb].
  destruct (combine_from_row 0 (map strip first) rest k (strip p)) as (d & Hd & Hsub & Hparts).
  { now rewrite list_lookup_fmap, Hp. }
  { exact Hrest. }
  exists d. split; [exact Hd|]. intros part' p' [<- | Hin] Hp'.
  - rewrite Hp in Hp'. now injection Hp' as <-.
  - now apply (Hparts part').
Qed.

Lemma parts_have_row (float_str : float -> string) (df : frame) parts k :
  Forall (fun col => length (snd col) = nrows df) df ->
  k < nrows df ->
  description_parts float_str df = Some parts ->
  parts <> [] /\ Forall (fun part : list string => is_Some (part !! k)) parts.
Proof.
  intros Hwf Hk. unfold description_parts.
  destruct (get df "Description") as [cells|] eqn:Hcells; [|discriminate].
  intros [= <-]. split; [discriminate|].
  assert (Hcol : forall c cs (f : cell -> string),
             get df c = Some cs -> is_Some (map f cs !! k)).
  { intros c cs f Hget. apply lookup_lt_is_Some. rewrite length_map.
    rewrite (get_length df c cs Hwf Hget). exact Hk. }
  assert (Hopt : forall found,
             Forall (fun part : list string => is_Some (part !! k))
                    (optional_part float_str (first_column_among found df) df)).
  { intros found. unfold optional_part.
    destruct (first_column_among found df) as [c|] eqn:Hfound; [|constructor].
    constructor; [|constructor].
    unfold first_column_among in Hfound. apply find_some in Hfound as [Hin _].
    destruct (has_column_get df c (has_own_column df c Hin)) as [cs Hcs].
    rewrite Hcs. simpl. now apply (Hcol c). }
  constructor; [now apply (Hcol "Description")|].
  apply Forall_app. split; apply Hopt.
Qed.

(** The composed description keeps what matched its parts: in every row, a
    rule that matches the stripped text of the Description cell, or of the
    category or type cell that was appended, also matches the description
    composed for that row. *)
Theorem composed_description_keeps_matches
    (float_str : float -> string) (df : frame) (parts : list (list string))
    (part : list string) (k : nat) (p : string) (r : rule) :
  Forall (fun col => length (snd col) = nrows df) df ->
  description_parts float_str df = Some parts ->
  In part parts ->
  part !! k = Some p ->
  k < nrows df ->
  rule_matches (lower (strip p)) r = true ->
  exists d,
    combine parts (nrows df) !! k = Some d /\ rule_matches (lower d) r = true.
Proof.
  intros Hwf Hparts Hin Hp Hk Hr.
  destruct (parts_have_row float_str df parts k Hwf Hk Hparts) as [Hne Hall].
  destruct (combine_row parts (nrows df) k Hne Hall) as (d & Hd & Hsub).
  exists d. split; [exact Hd|].
  apply (rule_matches_in_longer r (lower (strip p))); [exact Hr|].
  apply substring_of_lower. now apply (Hsub part).
Qed.

Lemma composed_description_keeps_matches_witness :
  let df := [ ("Description", [Text "  STARBUCKS #123 "; Text "BOOKS"]);
              ("Category", [Text "Dining"; Num nan]);
              ("Type", [Text "Sale"; Text "Sale"]) ] in
  exists d,
    combine [ ["  STARBUCKS #123 "; "BOOKS"]; ["Dining"; ""]; ["Sale"; "Sale"] ] (nrows df) !! 0
    = Some d /\
    rule_matches (lower d) (mk_rule "dining" "Restaurant" "Dining" "food") = true.
Proof.
  apply (composed_description_keeps_matches (fun _ => "")
           [ ("Description", [Text "  STARBUCKS #123 "; Text "BOOKS"]);
             ("Category", [Text "Dining"; Num nan]);
             ("Type", [Text "Sale"; Text "Sale"]) ]
           [ ["  STARBUCKS #123 "; "BOOKS"]; ["Dining"; ""]; ["Sale"; "Sale"] ]
           ["Dining"; ""] 0 "Dining").
  - repeat constructor.
  - reflexivity.
  - right. now left.
  - reflexivity.
  - simpl. lia.
  - reflexivity.
Defined.

Example composed_description_sample :
  combine [ ["  STARBUCKS #123 "; "BOOKS"]; ["Dining"; ""]; ["Sale"; "Sale"] ] 2
  = ["STARBUCKS #123, Dining, Sale"; "BOOKS, , Sale"].
Proof. reflexivity. Qed.

End DescriptionLaws.

(** ** Resolution without questions *)

Section QuietResolution.
Import PyStr Table Resolver.

Lemma resolved_field table cols col :
  unresolved table cols col = false ->
  mem col cols = true \/
  (mem col cols = false /\ exists alt, first_alternative table cols col = Some alt).
Proof.
  unfold unresolved. destruct (mem col cols); [now left|]. simpl.
  destruct (first_alternative table cols col) as [alt|]; [|discriminate].
  intros _. right. split; [reflexivity | now exists alt].
Qed.

Lemma first_alternative_found table cols col alt :
  first_alternative table cols col = Some alt ->
  mem alt cols = true /\ In alt (dict_get table col).
Proof.
  unfold first_alternative. intros H. apply find_some in H as [Hin Hmem]. now split.
Qed.

Lemma resolve_column_renames table cols col alt :
  mem col cols = false ->
  first_alternative table cols col = Some alt ->
  forall (ask : console) st,
    resolve_column table cols ask st col =
    mk_state (<[alt := col]> (column_mapping st)) (missing_cols st) (prompted st).
Proof. intros Hcol Halt ask st. unfold resolve_column. now rewrite Hcol, Halt. Qed.

Ltac resolve_field H :=
  let Hmem := fresh "Hmem" in
  let Halt := fresh "Halt" in
  let alt := fresh "alt" in
  let Hin := fresh "Hin" in
  let Hpresent := fresh "Hpresent" in
  apply resolved_field in H as [Hmem | [Hmem [alt Halt]]];
  [ rewrite (resolve_column_exact _ _ _ _ _ Hmem)
  | rewrite (resolve_column_renames _ _ _ _ Hmem Halt);
    apply first_alternative_found in Halt as [Hpresent Hin];
    cbn [dict_get alternatives alternatives_amex9 String.eqb Ascii.eqb Bool.eqb] in Hin;
    cbn [In] in Hin;
    repeat (destruct Hin as [Hin | Hin]; [subst alt | ]); try contradiction ].

Ltac column_present :=
  unfold has_column; rewrite columns_rename;
  match goal with
  | H : mem ?name _ = true |- mem _ _ = true =>
      apply (mem_renamed _ _ name); [exact H | vm_compute; reflexivity]
  end.

(** In [amex9.py], when each of Date, Amount and Description has its own name
    or one of its alternative names among the columns, nobody is asked,
    nothing is synthesized, and after the renaming the frame has a Date, an
    Amount and a Description column. *)
Theorem amex9_quiet_resolution (ask : console) (df : frame) :
  existsb (unresolved alternatives_amex9 (columns df)) needed_columns_amex9 = false ->
  let resolved := resolve_amex9 ask df in
  prompted (snd resolved) = [] /\
  missing_cols (snd resolved) = [] /\
  has_column "Date" (fst resolved) = true /\
  has_column "Amount" (fst resolved) = true /\
  has_column "Description" (fst resolved) = true.
Proof.
  intros Hquiet. cbn [existsb needed_columns_amex9] in Hquiet.
  apply orb_false_iff in Hquiet as [Hdate Hquiet].
  apply orb_false_iff in Hquiet as [Hamount Hquiet].
  apply orb_false_iff in Hquiet as [Hdescription _].
  unfold resolve_amex9, resolve_columns, needed_columns_amex9, initial. cbn [fold_left].
  resolve_field Hdate; resolve_field Hamount; resolve_field Hdescription;
    cbn [fst snd prompted missing_cols column_mapping initial];
    (split; [reflexivity|]); (split; [reflexivity|]);
    unfold apply_resolution; cbn [fold_left missing_cols column_mapping];
    (split; [|split]); column_present.
Qed.

Lemma amex9_quiet_resolution_witness :
  let resolved :=
    resolve_amex9 (fun _ _ => None)
      [ ("Transaction Date", [Text "01/02/24"]); ("Details", [Text "COFFEE"]);
        ("AMOUNT", [Num 4.5%float]) ] in
  prompted (snd resolved) = [] /\
  missing_cols (snd resolved) = [] /\
  has_column "Date" (fst resolved) = true /\
  has_column "Amount" (fst resolved) = true /\
  has_column "Description" (fst resolved) = true.
Proof.
  apply (amex9_quiet_resolution (fun _ _ => None)
           [ ("Transaction Date", [Text "01/02/24"]); ("Details", [Text "COFFEE"]);
             ("AMOUNT", [Num 4.5%float]) ]).
  reflexivity.
Defined.

End QuietResolution.

(** ** Further properties of the resolver and the label of [bankfiles.py] *)

Section BankfilesLaws.
Import PyStr Table Resolver Payment.

(** [bankfiles.py] asks for Date and Description only, each exactly when
    neither its name nor an alternative name is a column, and it never asks
    for an amount column, whatever the columns are. *)
Theorem bankfiles_never_asks_for_amount (ask : console) (cols : list string) :
  let st := resolve_columns alternatives cols ask (needed_columns cols) in
  prompted st = List.filter (unresolved alternatives cols) ["Date"; "Description"] /\
  missing_cols st =
    List.filter (fun col => unresolved alternatives cols col && skips cols (ask col cols))
                ["Date"; "Description"].
Proof.
  cbv zeta. rewrite prompted_exactly, missing_exactly. unfold needed_columns.
  rewrite !List.filter_app.
  assert (H1 : List.filter (unresolved alternatives cols)
                           (if mem "Amount" cols then ["Amount"] else []) = []).
  { destruct (mem "Amount" cols) eqn:Hmem; [|reflexivity].
    cbn [List.filter]. unfold unresolved. now rewrite Hmem. }
  assert (H2 : List.filter
                 (fun col => unresolved alternatives cols col && skips cols (ask col cols))
                 (if mem "Amount" cols then ["Amount"] else []) = []).
  { destruct (mem "Amount" cols) eqn:Hmem; [|reflexivity].
    cbn [List.filter]. unfold unresolved. now rewrite Hmem. }
  now rewrite H1, H2, !app_nil_r.
Qed.

(** The VACU test looks at the set of column names only: a file that has all
    the columns of a VACU file keeps the label "vacu" whatever the order of
    its columns and whatever further columns it has. *)
Theorem vacu_detection_ignores_order_and_extras
    (cols cols' : list string) (csv_file : string) (df : frame) (src : source) :
  (forall col, In col cols -> In col cols') ->
  is_vacu_file cols = true ->
  is_vacu_file cols' = true /\ payment_method_label csv_file cols' df src = "vacu".
Proof.
  intros Hsub Hvacu.
  assert (Hvacu' : is_vacu_file cols' = true).
  { apply is_vacu_file_spec. apply is_vacu_file_spec in Hvacu.
    rewrite List.Forall_forall in *. intros col Hcol. apply Hsub, Hvacu, Hcol. }
  split; [exact Hvacu'|]. unfold payment_method_label. now rewrite Hvacu'.
Qed.

Lemma vacu_detection_ignores_order_and_extras_witness :
  payment_method_label "chase.csv"
    ["Balance"; "Status"; "Memo"; "Credit"; "Debit"; "Description"; "Check"; "Post Date";
     "Account Number"]
    [] (mk_source None None) = "vacu".
Proof.
  apply (vacu_detection_ignores_order_and_extras vacu_columns).
  - intros col Hcol. simpl in Hcol. simpl. tauto.
  - reflexivity.
Defined.

End BankfilesLaws.
